(** * AutoNumbering: sequential numbering of polygon features

    A shallow embedding of [auto_numbering.py], the controller of the
    "Auto Numbering" plugin.  The controller owns three pieces of state (the
    targeted layer, the undo history and the activation flag) and drives the
    vector-layer editing interface of the host application.  The host is not
    part of the plugin; the small model of it in [Module Host] fixes exactly
    the calls the controller makes: enumerate features, read the selection,
    open an edit session, write one attribute, commit.

    Python integers are unbounded, so field values and feature identifiers are
    [Z]; an attribute holding [None] is [option Z]'s [None]. *)

From Stdlib Require Import ZArith List Bool Lia Permutation Sorted.
Import ListNotations.
Open Scope Z_scope.

(** ** The host's vector layer, as far as the controller uses it *)

Module Host.

Definition FeatureId := Z.

(** A feature: its identifier and the value of the field ["number"]
    ([feature[self.field_name]]). *)
Record Feature := mkFeature {
  id : FeatureId;
  number : option Z
}.

(** A layer: its features in enumeration order, the identifiers currently
    selected, whether the data provider refuses edits, and whether an edit
    session is open.  The schema is taken to carry the field ["number"]
    (which [start_numbering] creates when it is absent). *)
Record Layer := mkLayer {
  features : list Feature;
  selectedIds : list FeatureId;
  readOnly : bool;
  editable : bool
}.

Definition getFeatures (l : Layer) : list Feature := features l.

Definition isSelected (l : Layer) (ft : Feature) : bool :=
  existsb (Z.eqb (id ft)) (selectedIds l).

Definition selectedFeatures (l : Layer) : list Feature :=
  filter (isSelected l) (features l).

(** What the host does when the user changes the selection. *)
Definition selectByIds (ids : list FeatureId) (l : Layer) : Layer :=
  mkLayer (features l) ids (readOnly l) (editable l).

Definition startEditing (l : Layer) : Layer :=
  if readOnly l then l
  else mkLayer (features l) (selectedIds l) (readOnly l) true.

Definition commitChanges (l : Layer) : Layer :=
  mkLayer (features l) (selectedIds l) (readOnly l) false.

Definition hasFeature (fid : FeatureId) (fs : list Feature) : bool :=
  existsb (fun ft => id ft =? fid) fs.

Definition setNumber (fid : FeatureId) (v : option Z) (ft : Feature)
  : Feature :=
  if id ft =? fid then mkFeature (id ft) v else ft.

(** The write succeeds, and reports [true], when an edit session is open
    and the layer has the feature; otherwise the layer is left as it is
    and the host reports [false]. *)
Definition changeAttributeValue (l : Layer) (fid : FeatureId)
    (v : option Z) : Layer * bool :=
  if editable l && hasFeature fid (features l)
  then (mkLayer (map (setNumber fid v) (features l))
                (selectedIds l) (readOnly l) (editable l), true)
  else (l, false).

(** The field value of the feature [fid], when the layer has it. *)
Definition attribute (fs : list Feature) (fid : FeatureId)
  : option (option Z) :=
  option_map number (find (fun ft => id ft =? fid) fs).

End Host.
Import Host.

(** ** The controller's state *)

(** One entry of [self.history]. *)
Record UndoRecord := mkUndo {
  feature_id : FeatureId;
  old_value : option Z;
  new_value : Z
}.

(** What the controller pushes on the host's message bar. *)
Inductive Message :=
| MsgSuccess (assigned : Z)   (* "Number {next_number} assigned" *)
| MsgUndo (removed : Z).      (* "Removed number {new_value}" *)

Record AutoNumbering := mkAutoNumbering {
  layer : option Layer;           (* self.layer, None until activation *)
  history : list UndoRecord;      (* self.history, newest entry last *)
  active : bool;                  (* self.active *)
  undo_btn : bool;                (* self.undo_btn.isEnabled() *)
  messageBar : list Message       (* messages pushed so far, oldest first *)
}.

(** A method either returns or raises [AttributeError] on [self.layer]
    being [None]; both carry the state the controller is left in. *)
Inductive outcome :=
| Returned (self : AutoNumbering)
| AttributeError (self : AutoNumbering).

(** ** number_selected *)

(** [feature[self.field_name] is not None and feature[self.field_name] > 0] *)
Definition is_numbered (feature : Feature) : bool :=
  match number feature with
  | Some v => v >? 0
  | None => false
  end.

(** The loop of lines 162-165, started from [max_number]. *)
Definition scan_max (feats : list Feature) (max_number : Z) : Z :=
  fold_left
    (fun max_number feat =>
       match number feat with
       | Some v => if v >? max_number then v else max_number
       | None => max_number
       end)
    feats max_number.

Definition next_number (l : Layer) : Z := scan_max (getFeatures l) 0 + 1.

Definition number_selected (self : AutoNumbering) : outcome :=
  if negb (active self) then Returned self
  else
    match layer self with
    | None => AttributeError self
    | Some l =>
      match selectedFeatures l with
      | [feature] =>
        if is_numbered feature then Returned self
        else
          let next := next_number l in
          let history' :=
            history self ++ [mkUndo (id feature) (number feature) next] in
          let l1 := startEditing l in
          let (l2, success) :=
            changeAttributeValue l1 (id feature) (Some next) in
          let l3 := commitChanges l2 in
          if success
          then Returned (mkAutoNumbering (Some l3) history' (active self)
                           true (messageBar self ++ [MsgSuccess next]))
          else Returned (mkAutoNumbering (Some l3) history' (active self)
                           (undo_btn self) (messageBar self))
      | _ => Returned self
      end
    end.

(** ** undo_last *)

(** [list.pop()]: the last entry and the entries before it. *)
Definition pop {A : Type} (l : list A) : option (list A * A) :=
  match rev l with
  | [] => None
  | x :: rest => Some (rev rest, x)
  end.

Definition undo_last (self : AutoNumbering) : outcome :=
  match pop (history self) with
  | None => Returned self
  | Some (rest, last_action) =>
    match layer self with
    | None =>
      AttributeError (mkAutoNumbering None rest (active self)
                        (undo_btn self) (messageBar self))
    | Some l =>
      let l1 := startEditing l in
      let (l2, success) :=
        changeAttributeValue l1 (feature_id last_action)
                             (old_value last_action) in
      let l3 := commitChanges l2 in
      let messages :=
        if success
        then messageBar self ++ [MsgUndo (new_value last_action)]
        else messageBar self in
      let btn := match rest with [] => false | _ => undo_btn self end in
      Returned (mkAutoNumbering (Some l3) rest (active self) btn messages)
    end
  end.

(** ** reset_numbers *)

(** A loop of attribute writes whose results are dropped. *)
Definition write_all (l : Layer) (writes : list (FeatureId * option Z))
  : Layer :=
  fold_left (fun l w => fst (changeAttributeValue l (fst w) (snd w)))
            writes l.

(** [reply] is the answer to the confirmation prompt: [true] for Yes. *)
Definition reset_numbers (reply : bool) (self : AutoNumbering)
  : AutoNumbering :=
  match layer self with
  | None => self
  | Some l =>
    if reply then
      let l1 := startEditing l in
      let l2 :=
        write_all l1 (map (fun feature => (id feature, None))
                          (getFeatures l)) in
      let l3 := commitChanges l2 in
      mkAutoNumbering (Some l3) [] (active self) false (messageBar self)
    else self
  end.

(** ** restart_numbering *)

(** An entry of [numbered_features]. *)
Record Numbered := mkNumbered {
  feature : Feature;
  old_number : Z
}.

Fixpoint collect_numbered (feats : list Feature) : list Numbered :=
  match feats with
  | [] => []
  | ft :: feats' =>
    match number ft with
    | Some v =>
      if v >? 0 then mkNumbered ft v :: collect_numbered feats'
      else collect_numbered feats'
    | None => collect_numbered feats'
    end
  end.

(** [list.sort(key=...)] is a stable sort.  Insertion from the right, each
    entry placed before the first one whose key is not smaller, keeps
    entries of equal key in their original order. *)
Fixpoint insert_by {A : Type} (key : A -> Z) (x : A) (l : list A) : list A :=
  match l with
  | [] => [x]
  | y :: l' =>
    if key x <=? key y then x :: y :: l' else y :: insert_by key x l'
  end.

Definition sort_by {A : Type} (key : A -> Z) (l : list A) : list A :=
  fold_right (insert_by key) [] l.

(** [enumerate(l, start)] *)
Fixpoint enumerate {A : Type} (start : Z) (l : list A) : list (Z * A) :=
  match l with
  | [] => []
  | x :: l' => (start, x) :: enumerate (start + 1) l'
  end.

Definition renumber_writes (sorted : list Numbered)
  : list (FeatureId * option Z) :=
  map (fun p => (id (feature (snd p)), Some (fst p))) (enumerate 1 sorted).

Definition restart_layer (l : Layer) : Layer :=
  let numbered_features := collect_numbered (getFeatures l) in
  let sorted := sort_by old_number numbered_features in
  let l1 := startEditing l in
  let l2 := write_all l1 (renumber_writes sorted) in
  commitChanges l2.

Definition restart_numbering (self : AutoNumbering) : AutoNumbering :=
  match layer self with
  | None => self
  | Some l =>
    mkAutoNumbering (Some (restart_layer l)) (history self) (active self)
                    (undo_btn self) (messageBar self)
  end.

(** ** Activation: __init__, toggle_numbering, start_numbering,
       stop_numbering *)

(** [QgsWkbTypes.GeometryType] *)
Inductive GeometryType :=
| PointGeometry
| LineGeometry
| PolygonGeometry
| UnknownGeometry
| NullGeometry.

(** What [self.iface.activeLayer()] hands to [start_numbering]: the kind of
    geometry of the layer and the layer as the controller reads it from
    line 125 on, its schema carrying the field ["number"] (lines 116-123
    add the field to a schema that lacks it). *)
Record ActiveLayer := mkActiveLayer {
  geometryType : GeometryType;
  vectorLayer : Layer
}.

(** The dialogs of [show_warning] and the message of line 130. *)
Inductive Notice :=
| WarnSelectLayer     (* "Please select a layer first!" *)
| WarnPolygonLayer    (* "Please select a polygon layer!" *)
| InfoActivated.      (* "Auto numbering activated! ..." *)

(** The controller together with the widgets [initGui] creates for it.  The
    subscription of [number_selected] to [selectionChanged] is held by the
    host and changes nothing the plugin owns; it is not part of the state. *)
Record Plugin := mkPlugin {
  controller : AutoNumbering;
  toggle_checked : bool;          (* self.toggle_action.isChecked() *)
  dock_visible : bool;            (* self.dock_widget.isVisible() *)
  notices : list Notice           (* warnings and notices, oldest first *)
}.


Definition set_layer (l : option Layer) (self : AutoNumbering)
  : AutoNumbering :=
  mkAutoNumbering l (history self) (active self) (undo_btn self)
                  (messageBar self).

Definition set_active (b : bool) (self : AutoNumbering) : AutoNumbering :=
  mkAutoNumbering (layer self) (history self) b (undo_btn self)
                  (messageBar self).

Definition start_numbering (activeLayer : option ActiveLayer) (p : Plugin)
  : Plugin :=
  match activeLayer with
  | None =>
    mkPlugin (set_layer None (controller p)) false (dock_visible p)
             (notices p ++ [WarnSelectLayer])
  | Some al =>
    let self := set_layer (Some (vectorLayer al)) (controller p) in
    match geometryType al with
    | PolygonGeometry =>
      mkPlugin (set_active true self) (toggle_checked p) true
               (notices p ++ [InfoActivated])
    | _ =>
      mkPlugin self false (dock_visible p) (notices p ++ [WarnPolygonLayer])
    end
  end.

Definition stop_numbering (p : Plugin) : Plugin :=
  mkPlugin (set_active false (controller p)) (toggle_checked p) false
           (notices p).


(** ** Events and runs *)

(** The user selects [ids] on the controller's layer; the host then fires
    [selectionChanged], which is connected to [number_selected]. *)
Definition set_selection (ids : list FeatureId) (self : AutoNumbering)
  : AutoNumbering :=
  mkAutoNumbering (option_map (selectByIds ids) (layer self)) (history self)
                  (active self) (undo_btn self) (messageBar self).

Definition on_selection_changed (ids : list FeatureId)
    (self : AutoNumbering) : outcome :=
  number_selected (set_selection ids self).

(** Sequencing of methods: an exception ends the run. *)
Definition and_then (o : outcome) (f : AutoNumbering -> outcome) : outcome :=
  match o with
  | Returned self => f self
  | AttributeError self => AttributeError self
  end.

(** The user clicks the features of [clicks] one after the other. *)
Definition select_each (clicks : list FeatureId) (self : AutoNumbering)
  : outcome :=
  fold_left (fun o fid => and_then o (on_selection_changed [fid]))
            clicks (Returned self).

Fixpoint undo_times (n : nat) (self : AutoNumbering) : outcome :=
  match n with
  | O => Returned self
  | S n' => and_then (undo_last self) (undo_times n')
  end.

(** The field values of the controller's layer, in enumeration order. *)
Definition field_values (self : AutoNumbering) : list (option Z) :=
  match layer self with
  | None => []
  | Some l => map number (features l)
  end.

(** ** The specification's formula for the next number *)

(** [max(values, default)] *)
Definition max_default (values : list Z) (default : Z) : Z :=
  match values with
  | [] => default
  | v :: values' => fold_left Z.max values' v
  end.

(** "1 + max(field value over all features, treating missing/None as 0,
    default 0 if collection empty)". *)
Definition spec_next_number (l : Layer) : Z :=
  1 + max_default
        (map (fun ft => match number ft with Some v => v | None => 0 end)
             (features l))
        0.

(** ** Definitions used to state and prove the properties *)

(** The field value as an integer key, [None] counting as 0. *)
Definition field_key (ft : Feature) : Z :=
  match number ft with Some v => v | None => 0 end.

(** The features being what a loop of writes leaves of [fs]. *)
Definition apply_writes (writes : list (FeatureId * option Z))
    (fs : list Feature) : list Feature :=
  fold_left (fun fs w => map (setNumber (fst w) (snd w)) fs) writes fs.

Definition apply_writes1 (writes : list (FeatureId * option Z))
    (ft : Feature) : Feature :=
  fold_left (fun ft w => setNumber (fst w) (snd w) ft) writes ft.

(** The [n] consecutive integers from [k] on: [numbers_from 1 n] is
    [[1; 2; ...; n]]. *)
Fixpoint numbers_from (k : Z) (n : nat) : list Z :=
  match n with
  | O => []
  | S n' => k :: numbers_from (k + 1) n'
  end.

(** The position of [fid] in [order], counted from [k]. *)
Fixpoint rank (fid : FeatureId) (order : list FeatureId) (k : Z)
  : option Z :=
  match order with
  | [] => None
  | d :: order' => if d =? fid then Some k else rank fid order' (k + 1)
  end.

(** The feature [ft] once the features of [order] carry their positions. *)
Definition relabel (order : list FeatureId) (ft : Feature) : Feature :=
  match rank (id ft) order 1 with
  | Some v => mkFeature (id ft) (Some v)
  | None => ft
  end.

(** The features of a layer that started unnumbered, after the features of
    [done] were clicked in that order. *)
Definition numbered_in_order (done : list FeatureId) (ft : Feature)
  : Feature :=
  mkFeature (id ft) (rank (id ft) done 1).

(** The order in which [restart_numbering] visits the numbered features. *)
Definition restart_order (fs : list Feature) : list Feature :=
  sort_by field_key (filter is_numbered fs).

(** The state [number_selected] returns once it has passed its three early
    returns with [feature] the one selected feature of the layer [l]. *)
Definition assigned (self : AutoNumbering) (l : Layer) (feature : Feature)
  : AutoNumbering :=
  let next := next_number l in
  let r := changeAttributeValue (startEditing l) (id feature) (Some next) in
  mkAutoNumbering (Some (commitChanges (fst r)))
    (history self ++ [mkUndo (id feature) (number feature) next])
    (active self)
    (if snd r then true else undo_btn self)
    (if snd r then messageBar self ++ [MsgSuccess next] else messageBar self).

(** A layer whose only feature carries a negative number, selected. *)
Definition negative_layer : Layer :=
  mkLayer [mkFeature 1 (Some (-5))] [1] false false.

Definition negative_state : AutoNumbering :=
  mkAutoNumbering (Some negative_layer) [] true false [].

(** A layer of a provider that refuses edits, its one feature selected. *)
Definition refused_layer : Layer :=
  mkLayer [mkFeature 1 None] [1] true false.

Definition refused_state : AutoNumbering :=
  mkAutoNumbering (Some refused_layer) [] true false [].

(** Three features, none numbered, on a layer that accepts edits. *)
Definition fresh_layer : Layer :=
  mkLayer [mkFeature 1 None; mkFeature 2 None; mkFeature 3 None]
          [] false false.

Definition fresh_state : AutoNumbering :=
  mkAutoNumbering (Some fresh_layer) [] true false [].

(** The layer of the specification's example: features A, B, C numbered
    5, 2, 8 and an unnumbered feature D (identifiers 10 to 13), with one
    record on the undo stack. *)
Definition example_layer : Layer :=
  mkLayer [mkFeature 10 (Some 5); mkFeature 11 (Some 2);
           mkFeature 12 (Some 8); mkFeature 13 None]
          [] false false.

Definition example_state : AutoNumbering :=
  mkAutoNumbering (Some example_layer) [mkUndo 12 None 8] true true
                  [MsgSuccess 8].

(** ** What the user and the host can make the plugin do *)

(** The calls that reach the controller once the plugin is loaded. *)
Inductive Command :=
| SelectionChanged (ids : list FeatureId)  (* the host fires the signal *)
| UndoLast                                 (* "Undo Last Number" *)
| ResetNumbers (reply : bool)              (* "Reset All Numbers" *)
| RestartNumbering.                        (* "Restart from 1" *)

Definition execute (c : Command) (self : AutoNumbering) : outcome :=
  match c with
  | SelectionChanged ids => on_selection_changed ids self
  | UndoLast => undo_last self
  | ResetNumbers reply => Returned (reset_numbers reply self)
  | RestartNumbering => Returned (restart_numbering self)
  end.

(** The controller a method leaves behind, returning or raising: the host
    reports an exception raised in a slot and goes on. *)
Definition state_of (o : outcome) : AutoNumbering :=
  match o with
  | Returned self => self
  | AttributeError self => self
  end.

Definition raises (o : outcome) : bool :=
  match o with
  | Returned _ => false
  | AttributeError _ => true
  end.




(** The outcome of a method, had the activation flag been [b]. *)
Definition with_active (b : bool) (o : outcome) : outcome :=
  match o with
  | Returned self => Returned (set_active b self)
  | AttributeError self => AttributeError (set_active b self)
  end.

(** The positive numbers a list of features carries, in enumeration
    order. *)
Definition positive_numbers (fs : list Feature) : list Z :=
  map field_key (filter is_numbered fs).


(** What holds of the undo stack as long as the layer is not swapped: an
    enabled undo button has something to undo, and every record names a
    feature of the layer and a number of at least 1. *)
Definition undo_stack_ok (self : AutoNumbering) : Prop :=
  (undo_btn self = true -> history self <> []) /\
  (forall r, In r (history self) ->
     1 <= new_value r /\
     exists l, layer self = Some l /\
               In (feature_id r) (map id (features l))).

(** ** The host model: writes *)

Section HostFacts.

Lemma feature_eta (ft : Feature) : mkFeature (id ft) (number ft) = ft.
Proof. destruct ft; reflexivity. Qed.

Lemma setNumber_id fid v ft : id (setNumber fid v ft) = id ft.
Proof. unfold setNumber; destruct (id ft =? fid); reflexivity. Qed.

Lemma setNumber_absent fid v fs :
  hasFeature fid fs = false -> map (setNumber fid v) fs = fs.
Proof.
  unfold hasFeature. induction fs as [|ft fs IH]; simpl; intro H.
  - reflexivity.
  - apply orb_false_iff in H as [Hft Hfs].
    unfold setNumber at 1. rewrite Hft. f_equal. auto.
Qed.

Lemma hasFeature_In fid fs :
  hasFeature fid fs = true <-> In fid (map id fs).
Proof.
  unfold hasFeature. rewrite existsb_exists, in_map_iff.
  split; intros [ft [H1 H2]]; exists ft.
  - apply Z.eqb_eq in H2. auto.
  - split; [assumption | apply Z.eqb_eq; assumption].
Qed.

Lemma changeAttributeValue_open l fid v :
  editable l = true ->
  changeAttributeValue l fid v =
  (mkLayer (map (setNumber fid v) (features l)) (selectedIds l)
           (readOnly l) true,
   hasFeature fid (features l)).
Proof.
  intro He. unfold changeAttributeValue. rewrite He. simpl.
  destruct (hasFeature fid (features l)) eqn:Hf.
  - reflexivity.
  - rewrite setNumber_absent by assumption.
    destruct l; simpl in *; subst; reflexivity.
Qed.

Lemma changeAttributeValue_closed l fid v :
  editable l = false -> changeAttributeValue l fid v = (l, false).
Proof. intro He. unfold changeAttributeValue. rewrite He. reflexivity. Qed.

Lemma startEditing_writable l :
  readOnly l = false ->
  startEditing l = mkLayer (features l) (selectedIds l) false true.
Proof. intro H. unfold startEditing. rewrite H. reflexivity. Qed.

Lemma write_all_open ws : forall l,
  editable l = true ->
  write_all l ws =
  mkLayer (apply_writes ws (features l)) (selectedIds l) (readOnly l) true.
Proof.
  unfold write_all, apply_writes.
  induction ws as [|w ws IH]; intros l He; simpl.
  - destruct l; simpl in *; subst; reflexivity.
  - rewrite changeAttributeValue_open by assumption. simpl.
    rewrite IH by reflexivity. reflexivity.
Qed.

Lemma write_all_closed ws : forall l,
  editable l = false -> write_all l ws = l.
Proof.
  unfold write_all. induction ws as [|w ws IH]; intros l He; simpl.
  - reflexivity.
  - rewrite changeAttributeValue_closed by assumption. simpl. auto.
Qed.

Lemma apply_writes_pointwise ws : forall fs,
  apply_writes ws fs = map (apply_writes1 ws) fs.
Proof.
  unfold apply_writes, apply_writes1.
  induction ws as [|w ws IH]; intro fs; simpl.
  - symmetry. apply map_id.
  - rewrite IH, map_map. reflexivity.
Qed.

End HostFacts.

Lemma write_features l fid v :
  features (commitChanges (fst (changeAttributeValue l fid v))) =
  if editable l then map (setNumber fid v) (features l) else features l.
Proof.
  destruct (editable l) eqn:He.
  - rewrite changeAttributeValue_open by assumption. reflexivity.
  - rewrite changeAttributeValue_closed by assumption. reflexivity.
Qed.

(** ** The maximum scan *)

Section MaxScan.

Lemma fold_max_ge vs : forall m, m <= fold_left Z.max vs m.
Proof.
  induction vs as [|v vs IH]; intro m; simpl.
  - lia.
  - specialize (IH (Z.max m v)). lia.
Qed.

Lemma fold_max_absorb vs : forall a b,
  Z.max a (fold_left Z.max vs b) = fold_left Z.max vs (Z.max a b).
Proof.
  induction vs as [|v vs IH]; intros a b; simpl.
  - reflexivity.
  - rewrite IH. f_equal. lia.
Qed.

Lemma scan_max_fold fs : forall m,
  0 <= m -> scan_max fs m = fold_left Z.max (map field_key fs) m.
Proof.
  unfold scan_max, field_key.
  induction fs as [|ft fs IH]; intros m Hm; simpl.
  - reflexivity.
  - destruct (number ft) as [v|].
    + destruct (Z.gtb_spec v m).
      * replace (Z.max m v) with v by lia. apply IH. lia.
      * replace (Z.max m v) with m by lia. apply IH. lia.
    + replace (Z.max m 0) with m by lia. apply IH. lia.
Qed.

Lemma scan_max_ge fs m : 0 <= m -> m <= scan_max fs m.
Proof.
  intro Hm. rewrite scan_max_fold by assumption. apply fold_max_ge.
Qed.

Lemma fold_max_upper vs : forall m b,
  m <= b -> Forall (fun v => v <= b) vs -> fold_left Z.max vs m <= b.
Proof.
  induction vs as [|v vs IH]; intros m b Hm Hvs; simpl.
  - assumption.
  - inversion Hvs; subst. apply IH; [lia | assumption].
Qed.

Lemma fold_max_lower vs : forall m v,
  In v vs -> v <= fold_left Z.max vs m.
Proof.
  induction vs as [|w vs IH]; intros m v Hin; simpl.
  - contradiction.
  - destruct Hin as [->|Hin].
    + pose proof (fold_max_ge vs (Z.max m v)). lia.
    + apply IH. assumption.
Qed.

Lemma scan_max_upper fs b :
  0 <= b ->
  (forall ft v, In ft fs -> number ft = Some v -> v <= b) ->
  scan_max fs 0 <= b.
Proof.
  intros Hb H. rewrite scan_max_fold by lia.
  apply fold_max_upper; [assumption|].
  apply Forall_forall. intros v Hv.
  apply in_map_iff in Hv as [ft [<- Hft]].
  unfold field_key. destruct (number ft) as [w|] eqn:E.
  - eapply H; eassumption.
  - assumption.
Qed.

Lemma scan_max_lower fs ft v :
  In ft fs -> number ft = Some v -> v <= scan_max fs 0.
Proof.
  intros Hin Hv. rewrite scan_max_fold by lia.
  apply fold_max_lower. apply in_map_iff. exists ft.
  split; [unfold field_key; rewrite Hv; reflexivity | assumption].
Qed.

Lemma next_number_positive l : 1 <= next_number l.
Proof.
  unfold next_number, getFeatures.
  pose proof (scan_max_ge (features l) 0). lia.
Qed.

Lemma next_number_clamped l :
  next_number l = 1 + Z.max 0 (max_default (map field_key (features l)) 0).
Proof.
  unfold next_number, getFeatures. rewrite scan_max_fold by lia.
  destruct (features l) as [|ft fs]; cbn [map max_default fold_left].
  - lia.
  - rewrite fold_max_absorb. lia.
Qed.

End MaxScan.

(** ** number_selected: the early returns and the assignment *)

Section NumberSelected.

Lemma number_selected_assigns s l ft :
  active s = true -> layer s = Some l -> selectedFeatures l = [ft] ->
  is_numbered ft = false ->
  number_selected s = Returned (assigned s l ft).
Proof.
  intros Ha Hl Hsel Hn. unfold number_selected, assigned.
  rewrite Ha, Hl, Hsel, Hn. simpl.
  destruct (changeAttributeValue (startEditing l) (id ft)
              (Some (next_number l))) as [l2 [|]]; reflexivity.
Qed.

Lemma number_selected_inv s s' :
  number_selected s = Returned s' ->
  s' = s \/
  exists l ft, active s = true /\ layer s = Some l /\
               selectedFeatures l = [ft] /\ is_numbered ft = false /\
               s' = assigned s l ft.
Proof.
  intro H. destruct (active s) eqn:Ha.
  2:{ unfold number_selected in H. rewrite Ha in H. simpl in H.
      left. congruence. }
  destruct (layer s) as [l|] eqn:Hl.
  2:{ unfold number_selected in H. rewrite Ha, Hl in H. discriminate. }
  destruct (selectedFeatures l) as [|ft [|ft' sel]] eqn:Hsel.
  - unfold number_selected in H. rewrite Ha, Hl, Hsel in H.
    left. simpl in H. congruence.
  - destruct (is_numbered ft) eqn:Hn.
    + unfold number_selected in H. rewrite Ha, Hl, Hsel, Hn in H.
      left. simpl in H. congruence.
    + right. exists l, ft.
      rewrite (number_selected_assigns s l ft) in H by assumption.
      repeat split; congruence.
  - unfold number_selected in H. rewrite Ha, Hl, Hsel in H.
    left. simpl in H. congruence.
Qed.

Lemma selected_In l ft : selectedFeatures l = [ft] -> In ft (features l).
Proof.
  intro H. unfold selectedFeatures in H.
  assert (Hin : In ft (filter (isSelected l) (features l)))
    by (rewrite H; left; reflexivity).
  apply filter_In in Hin. tauto.
Qed.

Lemma selected_hasFeature l ft :
  selectedFeatures l = [ft] -> hasFeature (id ft) (features l) = true.
Proof.
  intro H. apply hasFeature_In. apply in_map. eapply selected_In; eassumption.
Qed.

(** The one selected feature is the only feature carrying its identifier. *)
Lemma selected_unique l ft g :
  selectedFeatures l = [ft] -> In g (features l) -> id g = id ft -> g = ft.
Proof.
  intros H Hg Hid. unfold selectedFeatures in H.
  assert (Hft : In ft (filter (isSelected l) (features l)))
    by (rewrite H; left; reflexivity).
  apply filter_In in Hft as [_ Hsel].
  assert (Hin : In g (filter (isSelected l) (features l))).
  { apply filter_In. split; [assumption|].
    unfold isSelected in *. rewrite Hid. assumption. }
  rewrite H in Hin. destruct Hin as [?|[]]. congruence.
Qed.

Lemma assigned_writable s l ft :
  readOnly l = false -> selectedFeatures l = [ft] ->
  assigned s l ft =
  mkAutoNumbering
    (Some (mkLayer (map (setNumber (id ft) (Some (next_number l)))
                        (features l))
                   (selectedIds l) false false))
    (history s ++ [mkUndo (id ft) (number ft) (next_number l)])
    (active s) true (messageBar s ++ [MsgSuccess (next_number l)]).
Proof.
  intros Hro Hsel. unfold assigned.
  rewrite startEditing_writable by assumption.
  rewrite changeAttributeValue_open by reflexivity. simpl.
  rewrite (selected_hasFeature l ft) by assumption. reflexivity.
Qed.

End NumberSelected.

Lemma attribute_written fid v fs :
  hasFeature fid fs = true ->
  attribute (map (setNumber fid v) fs) fid = Some v.
Proof.
  unfold attribute, hasFeature.
  induction fs as [|ft fs IH]; simpl; intro H.
  - discriminate.
  - rewrite setNumber_id.
    destruct (id ft =? fid) eqn:E; simpl.
    + unfold setNumber. rewrite E. reflexivity.
    + apply IH. exact H.
Qed.

(** ** Properties of number_selected *)

(** C8.  [number_selected] returns the controller exactly as it found it,
    field values and undo stack included, when the activation flag is false,
    when the selection holds no feature or more than one, and when the one
    selected feature already has a positive number. *)
Theorem number_selected_noop (s : AutoNumbering) :
  active s = false \/
  (exists l, layer s = Some l /\
     (length (selectedFeatures l) = 0%nat \/
      (1 < length (selectedFeatures l))%nat \/
      exists ft v, selectedFeatures l = [ft] /\ number ft = Some v /\ 0 < v))
  -> number_selected s = Returned s.
Proof.
  intros [Ha | [l [Hl H]]]; unfold number_selected.
  - rewrite Ha. reflexivity.
  - rewrite Hl. destruct (negb (active s)); [reflexivity|].
    destruct H as [H0 | [Hmany | [ft [v [Hsel [Hv Hpos]]]]]].
    + destruct (selectedFeatures l); [reflexivity | discriminate].
    + destruct (selectedFeatures l) as [|a [|b sel]]; simpl in Hmany;
        try lia; reflexivity.
    + rewrite Hsel. unfold is_numbered. rewrite Hv.
      destruct (Z.gtb_spec v 0); [reflexivity | lia].
Qed.

Lemma number_selected_noop_witness :
  (exists l, layer (mkAutoNumbering
                      (Some (mkLayer [mkFeature 1 (Some 4); mkFeature 2 None]
                                     [1] false false))
                      [mkUndo 1 None 4] true true []) = Some l /\
     (length (selectedFeatures l) = 0%nat \/
      (1 < length (selectedFeatures l))%nat \/
      exists ft v, selectedFeatures l = [ft] /\ number ft = Some v /\ 0 < v))
  /\ number_selected
       (mkAutoNumbering
          (Some (mkLayer [mkFeature 1 (Some 4); mkFeature 2 None]
                         [1] false false))
          [mkUndo 1 None 4] true true [])
     = Returned
         (mkAutoNumbering
            (Some (mkLayer [mkFeature 1 (Some 4); mkFeature 2 None]
                           [1] false false))
            [mkUndo 1 None 4] true true []).
Proof.
  assert (H : exists l,
    layer (mkAutoNumbering
             (Some (mkLayer [mkFeature 1 (Some 4); mkFeature 2 None]
                            [1] false false))
             [mkUndo 1 None 4] true true []) = Some l /\
     (length (selectedFeatures l) = 0%nat \/
      (1 < length (selectedFeatures l))%nat \/
      exists ft v, selectedFeatures l = [ft] /\ number ft = Some v /\ 0 < v)).
  { eexists. split; [reflexivity|]. right. right.
    exists (mkFeature 1 (Some 4)), 4.
    split; [reflexivity | split; reflexivity]. }
  split; [exact H|].
  apply number_selected_noop. right. exact H.
Defined.

(** C10.  Whatever [number_selected] writes is at least 1: every undo record
    it adds carries a [new_value] of at least 1, and every field value that
    differs from the one held before the call is at least 1.  The scan
    starts from 0, so negative field values do not lower the result. *)
Theorem number_selected_writes_positive (s s' : AutoNumbering) :
  number_selected s = Returned s' ->
  (forall r, In r (history s') -> In r (history s) \/ 1 <= new_value r) /\
  (forall i v, nth_error (field_values s') i = Some (Some v) ->
               nth_error (field_values s) i = Some (Some v) \/ 1 <= v).
Proof.
  intro H. apply number_selected_inv in H as [-> | H].
  - split; intros; left; assumption.
  - destruct H as [l [ft [_ [Hl [_ [_ ->]]]]]].
    pose proof (next_number_positive l) as Hpos. split.
    + intros r Hr. unfold assigned in Hr. simpl in Hr.
      apply in_app_or in Hr as [Hr | [<- | []]]; [left; assumption|].
      right. exact Hpos.
    + intros i v. unfold field_values, assigned. rewrite Hl.
      cbn [layer]. rewrite write_features.
      destruct (editable (startEditing l)).
      2:{ replace (features (startEditing l)) with (features l)
            by (unfold startEditing; destruct (readOnly l); reflexivity).
          auto. }
      replace (features (startEditing l)) with (features l)
        by (unfold startEditing; destruct (readOnly l); reflexivity).
      rewrite map_map, !nth_error_map.
      destruct (nth_error (features l) i) as [g|]; simpl; [|discriminate].
      unfold setNumber. destruct (id g =? id ft); simpl; intro Hv.
      * right. congruence.
      * left. exact Hv.
Qed.

Lemma number_selected_writes_positive_witness :
  number_selected negative_state =
    Returned (mkAutoNumbering
                (Some (mkLayer [mkFeature 1 (Some 1)] [1] false false))
                [mkUndo 1 (Some (-5)) 1] true true [MsgSuccess 1]) /\
  (forall r, In r [mkUndo 1 (Some (-5)) 1] ->
             In r (history negative_state) \/ 1 <= new_value r) /\
  (forall i v, nth_error [Some 1] i = Some (Some v) ->
               nth_error (field_values negative_state) i = Some (Some v) \/
               1 <= v).
Proof.
  split; [reflexivity|].
  exact (number_selected_writes_positive negative_state
           (mkAutoNumbering
              (Some (mkLayer [mkFeature 1 (Some 1)] [1] false false))
              [mkUndo 1 (Some (-5)) 1] true true [MsgSuccess 1])
           eq_refl).
Defined.

(** C2, as the code has it.  When [number_selected] performs an assignment,
    the value it records and writes is 1 + max(0, m), that is
    max(1, 1 + m), for m the maximum of the field values with [None] counted
    as 0 and 0 for an empty collection: negative values count as 0 too. *)
Theorem number_selected_writes_next (s : AutoNumbering) (l : Layer)
    (ft : Feature) :
  active s = true -> layer s = Some l -> selectedFeatures l = [ft] ->
  is_numbered ft = false ->
  exists s' l',
    number_selected s = Returned s' /\ layer s' = Some l' /\
    history s' =
      history s ++ [mkUndo (id ft) (number ft)
                           (Z.max 1 (spec_next_number l))] /\
    (readOnly l = false ->
     attribute (features l') (id ft) =
       Some (Some (Z.max 1 (spec_next_number l)))).
Proof.
  intros Ha Hl Hsel Hn.
  assert (Hnext : next_number l = Z.max 1 (spec_next_number l)).
  { rewrite next_number_clamped. unfold spec_next_number.
    change (fun ft0 : Feature =>
              match number ft0 with Some v => v | None => 0 end)
      with field_key. lia. }
  exists (assigned s l ft). eexists.
  split; [apply number_selected_assigns; assumption|].
  split; [reflexivity|]. split.
  - unfold assigned. cbn [history]. rewrite Hnext. reflexivity.
  - intro Hro. rewrite write_features.
    rewrite startEditing_writable by assumption. cbn [editable features].
    rewrite Hnext. apply attribute_written.
    apply selected_hasFeature. assumption.
Qed.

Lemma number_selected_writes_next_witness :
  active negative_state = true /\
  layer negative_state = Some negative_layer /\
  selectedFeatures negative_layer = [mkFeature 1 (Some (-5))] /\
  is_numbered (mkFeature 1 (Some (-5))) = false /\
  exists s' l',
    number_selected negative_state = Returned s' /\ layer s' = Some l' /\
    history s' =
      history negative_state ++
      [mkUndo 1 (Some (-5)) (Z.max 1 (spec_next_number negative_layer))] /\
    (readOnly negative_layer = false ->
     attribute (features l') 1 =
       Some (Some (Z.max 1 (spec_next_number negative_layer)))).
Proof.
  split; [reflexivity|]. split; [reflexivity|].
  split; [reflexivity|]. split; [reflexivity|].
  exact (number_selected_writes_next negative_state negative_layer
           (mkFeature 1 (Some (-5))) eq_refl eq_refl eq_refl eq_refl).
Defined.

(** C2 as written fails on a layer whose field values are all negative:
    the code writes 1 where the formula of the specification gives -4. *)
Lemma number_selected_next_counterexample :
  number_selected negative_state =
    Returned (mkAutoNumbering
                (Some (mkLayer [mkFeature 1 (Some 1)] [1] false false))
                [mkUndo 1 (Some (-5)) 1] true true [MsgSuccess 1]) /\
  spec_next_number negative_layer = -4 /\
  1 <> spec_next_number negative_layer.
Proof.
  split; [reflexivity|]. split; [reflexivity|]. discriminate.
Qed.

(** C3, as the code has it.  Once [number_selected] is past its early
    returns it appends the record {feature_id, old_value, new_value} to the
    undo stack before it asks the host to write, and the record stays
    whether or not the host reports the write as done; only the success
    message and the enabling of the undo button wait for that report. *)
Theorem number_selected_pushes_record (s : AutoNumbering) (l : Layer)
    (ft : Feature) :
  active s = true -> layer s = Some l -> selectedFeatures l = [ft] ->
  is_numbered ft = false ->
  exists s',
    number_selected s = Returned s' /\
    history s' =
      history s ++ [mkUndo (id ft) (number ft) (next_number l)] /\
    (if snd (changeAttributeValue (startEditing l) (id ft)
                                  (Some (next_number l)))
     then messageBar s' = messageBar s ++ [MsgSuccess (next_number l)] /\
          undo_btn s' = true
     else messageBar s' = messageBar s /\ undo_btn s' = undo_btn s).
Proof.
  intros Ha Hl Hsel Hn. exists (assigned s l ft).
  split; [apply number_selected_assigns; assumption|].
  split; [reflexivity|]. unfold assigned. cbn [messageBar undo_btn].
  destruct (snd (changeAttributeValue (startEditing l) (id ft)
                   (Some (next_number l)))); split; reflexivity.
Qed.

Lemma number_selected_pushes_record_witness :
  active refused_state = true /\
  layer refused_state = Some refused_layer /\
  selectedFeatures refused_layer = [mkFeature 1 None] /\
  is_numbered (mkFeature 1 None) = false /\
  exists s',
    number_selected refused_state = Returned s' /\
    history s' = history refused_state ++ [mkUndo 1 None
                                             (next_number refused_layer)] /\
    (if snd (changeAttributeValue (startEditing refused_layer) 1
                                  (Some (next_number refused_layer)))
     then messageBar s' =
            messageBar refused_state ++
            [MsgSuccess (next_number refused_layer)] /\
          undo_btn s' = true
     else messageBar s' = messageBar refused_state /\
          undo_btn s' = undo_btn refused_state).
Proof.
  split; [reflexivity|]. split; [reflexivity|].
  split; [reflexivity|]. split; [reflexivity|].
  exact (number_selected_pushes_record refused_state refused_layer
           (mkFeature 1 None) eq_refl eq_refl eq_refl eq_refl).
Defined.

(** C3 as written fails when the host refuses the write: the write reports
    failure, the field keeps its value, and the undo stack has nonetheless
    grown by one record. *)
Lemma number_selected_record_counterexample :
  snd (changeAttributeValue (startEditing refused_layer) 1 (Some 1)) = false
  /\ number_selected refused_state =
       Returned (mkAutoNumbering
                   (Some (mkLayer [mkFeature 1 None] [1] true false))
                   [mkUndo 1 None 1] true false [])
  /\ [mkUndo 1 None 1] <> history refused_state.
Proof.
  split; [reflexivity|]. split; [reflexivity|]. discriminate.
Qed.

(** ** undo_last *)

Section Undo.

Lemma pop_app_last (A : Type) (l : list A) (x : A) :
  pop (l ++ [x]) = Some (l, x).
Proof.
  unfold pop. rewrite rev_app_distr. simpl. rewrite rev_involutive.
  reflexivity.
Qed.

Lemma undo_last_empty s : history s = [] -> undo_last s = Returned s.
Proof. intro H. unfold undo_last. rewrite H. reflexivity. Qed.

Lemma undo_times_empty n : forall s,
  history s = [] -> undo_times n s = Returned s.
Proof.
  induction n as [|n IH]; intros s H; simpl.
  - reflexivity.
  - rewrite undo_last_empty by assumption. simpl. apply IH. assumption.
Qed.

(** On a layer that accepts edits, [undo_last] removes the newest record
    and writes its [old_value] back. *)
Lemma undo_last_restores s l h r :
  layer s = Some l -> readOnly l = false -> history s = h ++ [r] ->
  exists s' l',
    undo_last s = Returned s' /\ history s' = h /\ active s' = active s /\
    layer s' = Some l' /\ readOnly l' = false /\
    selectedIds l' = selectedIds l /\
    features l' =
      map (setNumber (feature_id r) (old_value r)) (features l).
Proof.
  intros Hl Hro Hh. unfold undo_last.
  rewrite Hh, pop_app_last, Hl.
  rewrite startEditing_writable by assumption.
  rewrite changeAttributeValue_open by reflexivity.
  cbn [features selectedIds readOnly].
  eexists. eexists. split; [reflexivity|].
  repeat split; reflexivity.
Qed.

(** Writing the old value of the selected feature over any value written to
    it gives back the features as they were. *)
Lemma setNumber_restore l ft v :
  selectedFeatures l = [ft] ->
  map (setNumber (id ft) (number ft))
      (map (setNumber (id ft) v) (features l)) = features l.
Proof.
  intro Hsel. rewrite map_map.
  rewrite <- (map_id (features l)) at 2.
  apply map_ext_in. intros g Hg. unfold setNumber.
  destruct (id g =? id ft) eqn:E; simpl.
  - rewrite E. apply Z.eqb_eq in E.
    rewrite (selected_unique l ft g Hsel Hg E). apply feature_eta.
  - rewrite E. reflexivity.
Qed.

End Undo.

(** C4.  [undo_last] undoes assignments newest first.  After an assignment
    to [ft] on a layer that accepts edits, [undo_last] gives every feature,
    [ft] included, the field value it had before the assignment and leaves
    the undo stack as it was.  After a second assignment, to [ft2], the
    first [undo_last] restores the values held before the second assignment
    ([ft2] restored, [ft] still numbered) and the second [undo_last] those
    held before the first. *)
Theorem undo_last_inverse (s : AutoNumbering) (l : Layer) (ft : Feature) :
  active s = true -> layer s = Some l -> readOnly l = false ->
  selectedFeatures l = [ft] -> is_numbered ft = false ->
  exists s1,
    number_selected s = Returned s1 /\
    (exists s2, undo_last s1 = Returned s2 /\
                field_values s2 = field_values s /\
                history s2 = history s) /\
    (forall ids l1 ft2,
        layer (set_selection ids s1) = Some l1 ->
        selectedFeatures l1 = [ft2] -> is_numbered ft2 = false ->
        exists s2 s3 s4,
          number_selected (set_selection ids s1) = Returned s2 /\
          undo_last s2 = Returned s3 /\
          undo_last s3 = Returned s4 /\
          field_values s3 = field_values s1 /\ history s3 = history s1 /\
          field_values s4 = field_values s /\ history s4 = history s).
Proof.
  intros Ha Hl Hro Hsel Hn. exists (assigned s l ft).
  split; [apply number_selected_assigns; assumption|].
  rewrite assigned_writable by assumption.
  set (r1 := mkUndo (id ft) (number ft) (next_number l)).
  set (fs1 := map (setNumber (id ft) (Some (next_number l))) (features l)).
  split.
  - edestruct (undo_last_restores
                 (mkAutoNumbering
                    (Some (mkLayer fs1 (selectedIds l) false false))
                    (history s ++ [r1]) (active s) true
                    (messageBar s ++ [MsgSuccess (next_number l)])))
      as [s2 [l2 [Hu [Hh [_ [Hl2 [_ [_ Hf]]]]]]]];
      [reflexivity | reflexivity | reflexivity |].
    exists s2. split; [exact Hu|]. split; [|exact Hh].
    unfold field_values. rewrite Hl2, Hl, Hf.
    cbn [features feature_id old_value r1]. unfold fs1.
    rewrite setNumber_restore by assumption. reflexivity.
  - intros ids l1 ft2 Hl1 Hsel2 Hn2.
    cbn in Hl1. injection Hl1 as <-.
    set (s1' := set_selection ids _).
    set (l1 := selectByIds ids _) in *.
    assert (Hro1 : readOnly l1 = false) by reflexivity.
    assert (Hl1 : layer s1' = Some l1) by reflexivity.
    exists (assigned s1' l1 ft2).
    rewrite (number_selected_assigns s1' l1 ft2)
      by (try assumption; exact Ha).
    rewrite assigned_writable by assumption.
    set (r2 := mkUndo (id ft2) (number ft2) (next_number l1)).
    edestruct (undo_last_restores
                 (mkAutoNumbering
                    (Some (mkLayer
                             (map (setNumber (id ft2)
                                             (Some (next_number l1)))
                                  (features l1))
                             (selectedIds l1) false false))
                    (history s1' ++ [r2]) (active s1') true
                    (messageBar s1' ++ [MsgSuccess (next_number l1)])))
      as [s3 [l3 [Hu3 [Hh3 [_ [Hl3 [Hro3 [_ Hf3]]]]]]]];
      [reflexivity | reflexivity | reflexivity |].
    cbn [features feature_id old_value r2] in Hf3.
    rewrite setNumber_restore in Hf3 by assumption.
    edestruct (undo_last_restores s3 l3 (history s) r1)
      as [s4 [l4 [Hu4 [Hh4 [_ [Hl4 [_ [_ Hf4]]]]]]]];
      [exact Hl3 | exact Hro3 | rewrite Hh3; reflexivity |].
    exists s3, s4. split; [reflexivity|].
    split; [exact Hu3|]. split; [exact Hu4|].
    split; [unfold field_values; rewrite Hl3, Hf3; reflexivity|].
    split; [rewrite Hh3; reflexivity|].
    split; [|exact Hh4].
    unfold field_values. rewrite Hl4, Hl, Hf4, Hf3.
    cbn [features feature_id old_value r1 l1 selectByIds]. unfold fs1.
    rewrite setNumber_restore by assumption. reflexivity.
Qed.

Lemma undo_last_inverse_witness :
  active (set_selection [1] fresh_state) = true /\
  layer (set_selection [1] fresh_state) =
    Some (selectByIds [1] fresh_layer) /\
  readOnly (selectByIds [1] fresh_layer) = false /\
  selectedFeatures (selectByIds [1] fresh_layer) = [mkFeature 1 None] /\
  is_numbered (mkFeature 1 None) = false /\
  exists s1,
    number_selected (set_selection [1] fresh_state) = Returned s1 /\
    (exists s2, undo_last s1 = Returned s2 /\
                field_values s2 =
                  field_values (set_selection [1] fresh_state) /\
                history s2 = history (set_selection [1] fresh_state)) /\
    (forall ids l1 ft2,
        layer (set_selection ids s1) = Some l1 ->
        selectedFeatures l1 = [ft2] -> is_numbered ft2 = false ->
        exists s2 s3 s4,
          number_selected (set_selection ids s1) = Returned s2 /\
          undo_last s2 = Returned s3 /\
          undo_last s3 = Returned s4 /\
          field_values s3 = field_values s1 /\ history s3 = history s1 /\
          field_values s4 = field_values (set_selection [1] fresh_state) /\
          history s4 = history (set_selection [1] fresh_state)).
Proof.
  split; [reflexivity|]. split; [reflexivity|]. split; [reflexivity|].
  split; [reflexivity|]. split; [reflexivity|].
  exact (undo_last_inverse (set_selection [1] fresh_state)
           (selectByIds [1] fresh_layer) (mkFeature 1 None)
           eq_refl eq_refl eq_refl eq_refl eq_refl).
Defined.

(** The scenario of the specification, evaluated: features 1 then 2 are
    numbered, the first undo clears feature 2 only, the second feature 1. *)
Example undo_twice_in_stack_order :
  and_then (select_each [1; 2] fresh_state) undo_last =
    Returned (mkAutoNumbering
                (Some (mkLayer [mkFeature 1 (Some 1); mkFeature 2 None;
                                mkFeature 3 None] [2] false false))
                [mkUndo 1 None 1] true true
                [MsgSuccess 1; MsgSuccess 2; MsgUndo 2]) /\
  and_then (select_each [1; 2] fresh_state) (undo_times 2) =
    Returned (mkAutoNumbering
                (Some (mkLayer [mkFeature 1 None; mkFeature 2 None;
                                mkFeature 3 None] [2] false false))
                [] true false
                [MsgSuccess 1; MsgSuccess 2; MsgUndo 2; MsgUndo 1]).
Proof. split; reflexivity. Qed.

(** ** reset_numbers *)

Section Reset.

Lemma apply_writes1_cleared ws : forall i,
  (forall w, In w ws -> snd w = None) ->
  apply_writes1 ws (mkFeature i None) = mkFeature i None.
Proof.
  unfold apply_writes1. induction ws as [|w ws IH]; intros i H; simpl.
  - reflexivity.
  - rewrite (H w) by (left; reflexivity).
    unfold setNumber. simpl. destruct (i =? fst w); apply IH;
      intros w' Hw'; apply H; right; assumption.
Qed.

Lemma apply_writes1_clears ws : forall ft,
  (forall w, In w ws -> snd w = None) ->
  In (id ft) (map fst ws) ->
  apply_writes1 ws ft = mkFeature (id ft) None.
Proof.
  induction ws as [|w ws IH]; intros ft H Hin.
  - contradiction.
  - assert (Hws : forall w', In w' ws -> snd w' = None)
      by (intros w' Hw'; apply H; right; assumption).
    change (apply_writes1 (w :: ws) ft)
      with (apply_writes1 ws (setNumber (fst w) (snd w) ft)).
    rewrite (H w) by (left; reflexivity). unfold setNumber.
    destruct (id ft =? fst w) eqn:E.
    + apply apply_writes1_cleared. assumption.
    + apply IH; [assumption|]. destruct Hin as [Hin | Hin].
      * apply Z.eqb_neq in E. congruence.
      * assumption.
Qed.

Lemma reset_numbers_declined s : reset_numbers false s = s.
Proof. unfold reset_numbers. destruct (layer s); reflexivity. Qed.

Lemma reset_numbers_clears_history s l :
  layer s = Some l -> history (reset_numbers true s) = [].
Proof. intro H. unfold reset_numbers. rewrite H. reflexivity. Qed.

Lemma reset_numbers_unsets s l :
  layer s = Some l -> readOnly l = false ->
  field_values (reset_numbers true s) = map (fun _ => None) (features l).
Proof.
  intros Hl Hro. unfold field_values, reset_numbers, getFeatures.
  rewrite Hl. cbn [layer].
  rewrite startEditing_writable by assumption.
  rewrite write_all_open by reflexivity. cbn [features commitChanges].
  rewrite apply_writes_pointwise, map_map.
  apply map_ext_in. intros ft Hft.
  rewrite apply_writes1_clears; [reflexivity | |].
  - intros w Hw. apply in_map_iff in Hw as [g [<- _]]. reflexivity.
  - rewrite map_map. simpl. apply in_map. assumption.
Qed.

End Reset.

(** C7.  Declined, [reset_numbers] returns the controller unchanged.
    Confirmed, it empties the undo stack, so that any number of [undo_last]
    calls afterwards change nothing, and on a layer that accepts edits it
    leaves every feature with its number unset. *)
Theorem reset_numbers_spec (s : AutoNumbering) (l : Layer) :
  layer s = Some l ->
  reset_numbers false s = s /\
  history (reset_numbers true s) = [] /\
  (forall n, undo_times n (reset_numbers true s) =
             Returned (reset_numbers true s)) /\
  (readOnly l = false ->
   field_values (reset_numbers true s) = map (fun _ => None) (features l)).
Proof.
  intro Hl.
  split; [apply reset_numbers_declined|].
  split; [eapply reset_numbers_clears_history; eassumption|].
  split.
  - intro n. apply undo_times_empty.
    eapply reset_numbers_clears_history; eassumption.
  - intro Hro. apply reset_numbers_unsets; assumption.
Qed.

Lemma reset_numbers_spec_witness :
  layer example_state = Some example_layer /\
  reset_numbers false example_state = example_state /\
  history (reset_numbers true example_state) = [] /\
  (forall n, undo_times n (reset_numbers true example_state) =
             Returned (reset_numbers true example_state)) /\
  (readOnly example_layer = false ->
   field_values (reset_numbers true example_state) =
     map (fun _ => None) (features example_layer)).
Proof.
  split; [reflexivity|].
  exact (reset_numbers_spec example_state example_layer eq_refl).
Defined.

(** ** restart_numbering *)

(** C9.  [restart_numbering] leaves the undo stack exactly as it was: the
    same records in the same order, none added and none removed. *)
Theorem restart_numbering_keeps_history (s : AutoNumbering) :
  history (restart_numbering s) = history s.
Proof. unfold restart_numbering. destruct (layer s); reflexivity. Qed.

(** *** The stable sort *)

Section StableSort.

Context {A : Type} (key : A -> Z).

Lemma insert_by_perm x l : Permutation (insert_by key x l) (x :: l).
Proof.
  induction l as [|y l IH]; simpl.
  - apply Permutation_refl.
  - destruct (key x <=? key y).
    + apply Permutation_refl.
    + eapply perm_trans; [apply perm_skip; exact IH | apply perm_swap].
Qed.

Lemma sort_by_perm l : Permutation (sort_by key l) l.
Proof.
  induction l as [|x l IH]; simpl.
  - apply perm_nil.
  - eapply perm_trans; [apply insert_by_perm | apply perm_skip; exact IH].
Qed.

Lemma insert_by_sorted x l :
  StronglySorted (fun a b => key a <= key b) l ->
  StronglySorted (fun a b => key a <= key b) (insert_by key x l).
Proof.
  induction l as [|y l IH]; simpl; intro Hs.
  - constructor; constructor.
  - inversion Hs as [|? ? Hl Hy]; subst.
    destruct (Z.leb_spec (key x) (key y)) as [Hxy | Hxy].
    + constructor; [assumption|]. constructor; [exact Hxy|].
      eapply Forall_impl; [|exact Hy]. simpl. intros; lia.
    + constructor; [apply IH; assumption|].
      eapply Permutation_Forall;
        [apply Permutation_sym; apply insert_by_perm|].
      constructor; [lia | assumption].
Qed.

Lemma sort_by_sorted l :
  StronglySorted (fun a b => key a <= key b) (sort_by key l).
Proof.
  induction l as [|x l IH]; simpl.
  - constructor.
  - apply insert_by_sorted. exact IH.
Qed.

(** Stability: the entries of any one key come out in the order they went
    in. *)
Lemma insert_by_same_key v x l :
  filter (fun a => key a =? v) (insert_by key x l) =
  filter (fun a => key a =? v) (x :: l).
Proof.
  induction l as [|y l IH]; simpl.
  - reflexivity.
  - destruct (Z.leb_spec (key x) (key y)) as [Hxy | Hxy]; simpl.
    + reflexivity.
    + simpl in IH. rewrite IH.
      destruct (Z.eqb_spec (key x) v), (Z.eqb_spec (key y) v);
        try reflexivity.
      lia.
Qed.

Lemma sort_by_stable v l :
  filter (fun a => key a =? v) (sort_by key l) =
  filter (fun a => key a =? v) l.
Proof.
  induction l as [|x l IH]; simpl.
  - reflexivity.
  - rewrite insert_by_same_key. simpl. rewrite IH. reflexivity.
Qed.

Lemma sorted_keys l :
  StronglySorted (fun a b => key a <= key b) l ->
  StronglySorted Z.le (map key l).
Proof.
  induction 1 as [|x l Hs IH Hx]; simpl; constructor.
  - exact IH.
  - apply Forall_forall. intros k Hk.
    apply in_map_iff in Hk as [y [<- Hy]].
    rewrite Forall_forall in Hx. apply Hx. exact Hy.
Qed.

End StableSort.

Lemma map_insert_by (A B : Type) (f : A -> B) (keyA : A -> Z)
    (keyB : B -> Z) x l :
  keyA x = keyB (f x) -> (forall y, In y l -> keyA y = keyB (f y)) ->
  map f (insert_by keyA x l) = insert_by keyB (f x) (map f l).
Proof.
  intros Hx. induction l as [|y l IH]; intro Hl; simpl.
  - reflexivity.
  - rewrite <- Hx, <- (Hl y) by (left; reflexivity).
    destruct (keyA x <=? keyA y); simpl.
    + reflexivity.
    + rewrite IH; [reflexivity|]. intros z Hz. apply Hl. right. exact Hz.
Qed.

Lemma map_sort_by (A B : Type) (f : A -> B) (keyA : A -> Z)
    (keyB : B -> Z) l :
  (forall y, In y l -> keyA y = keyB (f y)) ->
  map f (sort_by keyA l) = sort_by keyB (map f l).
Proof.
  induction l as [|x l IH]; intro Hl; simpl.
  - reflexivity.
  - rewrite (map_insert_by A B f keyA keyB).
    + rewrite IH; [reflexivity|]. intros; apply Hl; right; assumption.
    + apply Hl. left. reflexivity.
    + intros y Hy. apply Hl. right.
      eapply Permutation_in; [apply sort_by_perm | exact Hy].
Qed.

(** *** Lists of integers *)

Section IntegerLists.

(** A sorted list is determined by its elements. *)
Lemma sorted_perm_unique (l1 : list Z) : forall l2,
  StronglySorted Z.le l1 -> StronglySorted Z.le l2 ->
  Permutation l1 l2 -> l1 = l2.
Proof.
  induction l1 as [|a l1 IH]; intros l2 H1 H2 Hp.
  - apply Permutation_nil in Hp. congruence.
  - destruct l2 as [|b l2].
    + apply Permutation_sym, Permutation_nil in Hp. discriminate.
    + inversion H1 as [|? ? Hs1 Ha]; inversion H2 as [|? ? Hs2 Hb]; subst.
      rewrite Forall_forall in Ha, Hb.
      assert (a = b).
      { assert (Hb1 : In b (a :: l1))
          by (eapply Permutation_in;
              [apply Permutation_sym; exact Hp | left; reflexivity]).
        assert (Ha2 : In a (b :: l2))
          by (eapply Permutation_in; [exact Hp | left; reflexivity]).
        destruct Hb1 as [|Hb1]; [congruence|].
        destruct Ha2 as [|Ha2]; [congruence|].
        specialize (Ha b Hb1). specialize (Hb a Ha2). lia. }
      subst b. f_equal. apply IH; try assumption.
      eapply Permutation_cons_inv. exact Hp.
Qed.

Lemma numbers_from_bounds n : forall k z,
  In z (numbers_from k n) -> k <= z < k + Z.of_nat n.
Proof.
  induction n as [|n IH]; intros k z Hz.
  - contradiction.
  - destruct Hz as [<- | Hz]; [lia|].
    apply IH in Hz. lia.
Qed.

Lemma numbers_from_increasing n : forall k,
  StronglySorted Z.lt (numbers_from k n).
Proof.
  induction n as [|n IH]; intro k; simpl; constructor.
  - apply IH.
  - apply Forall_forall. intros z Hz.
    apply numbers_from_bounds in Hz. lia.
Qed.

Lemma numbers_from_sorted k n : StronglySorted Z.le (numbers_from k n).
Proof.
  induction (numbers_from_increasing n k) as [|x l Hs IH Hx]; constructor.
  - exact IH.
  - eapply Forall_impl; [|exact Hx]. simpl. intros; lia.
Qed.

Lemma numbers_from_NoDup k n : NoDup (numbers_from k n).
Proof.
  induction (numbers_from_increasing n k) as [|x l Hs IH Hx]; constructor.
  - rewrite Forall_forall in Hx. intro Hin. apply Hx in Hin. lia.
  - exact IH.
Qed.

End IntegerLists.

(** Two arrangements of the same entries that agree on an injective
    attribute are the same list. *)
Lemma perm_same_keys (A B : Type) (f : A -> B) (l1 : list A) : forall l2,
  Permutation l1 l2 -> map f l1 = map f l2 -> NoDup (map f l2) -> l1 = l2.
Proof.
  induction l1 as [|a l1 IH]; intros l2 Hp Hm Hnd.
  - apply Permutation_nil in Hp. congruence.
  - destruct l2 as [|b l2]; [discriminate|].
    simpl in Hm. injection Hm as Hab Hm.
    inversion Hnd as [|? ? Hnotin Hnd']; subst.
    assert (a = b).
    { assert (Ha : In a (b :: l2))
        by (eapply Permutation_in; [exact Hp | left; reflexivity]).
      destruct Ha as [|Ha]; [congruence|].
      exfalso. apply Hnotin. rewrite <- Hab. apply in_map. exact Ha. }
    subst b. f_equal. apply IH; try assumption.
    eapply Permutation_cons_inv. exact Hp.
Qed.

Lemma filter_map_comm (A B : Type) (p : B -> bool) (g : A -> B) l :
  filter p (map g l) = map g (filter (fun x => p (g x)) l).
Proof.
  induction l as [|x l IH]; simpl.
  - reflexivity.
  - destruct (p (g x)); simpl; rewrite IH; reflexivity.
Qed.

(** *** Positions in a list of identifiers *)

Section Rank.

Lemma rank_absent fid order : forall k,
  ~ In fid order -> rank fid order k = None.
Proof.
  induction order as [|d order IH]; intros k H; simpl.
  - reflexivity.
  - destruct (Z.eqb_spec d fid) as [->|Hd].
    + exfalso. apply H. left. reflexivity.
    + apply IH. intro Hin. apply H. right. exact Hin.
Qed.

Lemma rank_present fid order : forall k,
  In fid order -> exists v, rank fid order k = Some v /\ k <= v.
Proof.
  induction order as [|d order IH]; intros k H; simpl.
  - contradiction.
  - destruct (Z.eqb_spec d fid) as [->|Hd].
    + exists k. split; [reflexivity | lia].
    + destruct H as [H|H]; [contradiction|].
      destruct (IH (k + 1) H) as [v [Hv Hk]].
      exists v. split; [exact Hv | lia].
Qed.

Lemma rank_app_skip fid pre order : forall k,
  ~ In fid pre ->
  rank fid (pre ++ order) k = rank fid order (k + Z.of_nat (length pre)).
Proof.
  induction pre as [|d pre IH]; intros k H.
  - simpl. f_equal. lia.
  - cbn [app rank length]. destruct (Z.eqb_spec d fid) as [->|Hd].
    + exfalso. apply H. left. reflexivity.
    + rewrite IH by (intro Hin; apply H; right; exact Hin).
      f_equal. lia.
Qed.

Lemma rank_app_keep fid pre order : forall k,
  In fid pre -> rank fid (pre ++ order) k = rank fid pre k.
Proof.
  induction pre as [|d pre IH]; intros k H.
  - contradiction.
  - cbn [app rank]. destruct (Z.eqb_spec d fid) as [->|Hd].
    + reflexivity.
    + destruct H as [H|H]; [contradiction|]. apply IH. exact H.
Qed.

Lemma rank_nth order : forall n k fid,
  NoDup order -> nth_error order n = Some fid ->
  rank fid order k = Some (k + Z.of_nat n).
Proof.
  induction order as [|d order IH]; intros n k fid Hnd Hn.
  - destruct n; discriminate.
  - inversion Hnd as [|? ? Hd Hnd']; subst. destruct n as [|n].
    + simpl in Hn. injection Hn as ->. simpl.
      rewrite Z.eqb_refl. f_equal. lia.
    + simpl in Hn. simpl. destruct (Z.eqb_spec d fid) as [->|Hne].
      * exfalso. apply Hd. eapply nth_error_In. exact Hn.
      * rewrite (IH n (k + 1) fid Hnd' Hn). f_equal. lia.
Qed.

(** The positions of the entries of a duplicate-free list, read in its own
    order, are consecutive. *)
Lemma rank_self order : forall k,
  NoDup order ->
  map (fun fid => rank fid order k) order =
  map Some (numbers_from k (length order)).
Proof.
  induction order as [|d order IH]; intros k Hnd.
  - reflexivity.
  - inversion Hnd as [|? ? Hd Hnd']; subst.
    cbn [map length numbers_from rank]. rewrite Z.eqb_refl. f_equal.
    rewrite <- IH by assumption. apply map_ext_in. intros fid Hfid.
    destruct (Z.eqb_spec d fid) as [->|Hne]; [contradiction | reflexivity].
Qed.

End Rank.

(** *** Layers whose identifiers are unique *)

Section UniqueIds.

Variable fs : list Feature.
Hypothesis ids_unique : NoDup (map id fs).

Lemma id_determines a b : In a fs -> In b fs -> id a = id b -> a = b.
Proof.
  revert ids_unique. induction fs as [|ft l IH]; intros Hnd Ha Hb Hid.
  - contradiction.
  - inversion Hnd as [|? ? Hft Hnd']; subst.
    destruct Ha as [<-|Ha], Hb as [<-|Hb].
    + reflexivity.
    + exfalso. apply Hft. rewrite Hid. apply in_map. exact Hb.
    + exfalso. apply Hft. rewrite <- Hid. apply in_map. exact Ha.
    + apply IH; assumption.
Qed.

Lemma filter_ids_unique p : NoDup (map id (filter p fs)).
Proof.
  revert ids_unique. induction fs as [|ft l IH]; intro Hnd; simpl.
  - constructor.
  - inversion Hnd as [|? ? Hft Hnd']; subst.
    destruct (p ft); simpl; [|apply IH; assumption].
    constructor; [|apply IH; assumption].
    intro Hin. apply Hft. apply in_map_iff in Hin as [g [Hg Hin]].
    apply filter_In in Hin as [Hin _].
    rewrite <- Hg. apply in_map. exact Hin.
Qed.

Lemma find_by_id ft :
  In ft fs -> find (fun g => id g =? id ft) fs = Some ft.
Proof.
  revert ids_unique. induction fs as [|g l IH]; intros Hnd Hin.
  - contradiction.
  - inversion Hnd as [|? ? Hg Hnd']; subst. simpl.
    destruct (Z.eqb_spec (id g) (id ft)) as [E|E].
    + destruct Hin as [->|Hin]; [reflexivity|].
      exfalso. apply Hg. rewrite E. apply in_map. exact Hin.
    + destruct Hin as [->|Hin]; [contradiction|]. apply IH; assumption.
Qed.

(** Reading the field of a feature after each feature was replaced by one
    of the same identifier. *)
Lemma attribute_map (g : Feature -> Feature) ft :
  (forall x, id (g x) = id x) -> In ft fs ->
  attribute (map g fs) (id ft) = Some (number (g ft)).
Proof.
  intros Hg Hin. unfold attribute.
  assert (H : forall l,
    find (fun x => id x =? id ft) (map g l) =
    option_map g (find (fun x => id x =? id ft) l)).
  { induction l as [|x l IH]; simpl; [reflexivity|].
    rewrite Hg. destruct (id x =? id ft); [reflexivity | exact IH]. }
  rewrite H, find_by_id by assumption. reflexivity.
Qed.

End UniqueIds.

(** *** What restart_numbering writes *)

Section Restart.

Lemma collect_numbered_features fs :
  map feature (collect_numbered fs) = filter is_numbered fs.
Proof.
  induction fs as [|ft fs IH]; simpl.
  - reflexivity.
  - unfold is_numbered at 1. destruct (number ft) as [v|]; [|exact IH].
    destruct (v >? 0); simpl; rewrite IH; reflexivity.
Qed.

Lemma collect_numbered_keys fs it :
  In it (collect_numbered fs) -> old_number it = field_key (feature it).
Proof.
  induction fs as [|ft fs IH]; simpl.
  - contradiction.
  - destruct (number ft) as [v|] eqn:E; [|exact IH].
    destruct (v >? 0); [|exact IH].
    intros [<- | H]; [|apply IH; exact H].
    unfold field_key. simpl. rewrite E. reflexivity.
Qed.

Lemma sorted_numbered_features fs :
  map feature (sort_by old_number (collect_numbered fs)) = restart_order fs.
Proof.
  unfold restart_order. rewrite <- collect_numbered_features.
  apply map_sort_by. intros it Hit. apply collect_numbered_keys with fs.
  exact Hit.
Qed.

Lemma renumber_apply sorted : forall k ft,
  NoDup (map (fun it => id (feature it)) sorted) ->
  apply_writes1
    (map (fun p => (id (feature (snd p)), Some (fst p)))
         (enumerate k sorted)) ft =
  match rank (id ft) (map (fun it => id (feature it)) sorted) k with
  | Some v => mkFeature (id ft) (Some v)
  | None => ft
  end.
Proof.
  unfold apply_writes1.
  induction sorted as [|it sorted IH]; intros k ft Hnd.
  - reflexivity.
  - inversion Hnd as [|? ? Hit Hnd']; subst.
    cbn [enumerate map fold_left fst snd rank].
    rewrite IH by assumption. rewrite setNumber_id.
    rewrite (Z.eqb_sym (id (feature it)) (id ft)). unfold setNumber.
    destruct (Z.eqb_spec (id ft) (id (feature it))) as [E|E].
    + rewrite rank_absent by (rewrite E; exact Hit). reflexivity.
    + reflexivity.
Qed.

Lemma restart_order_perm fs :
  Permutation (restart_order fs) (filter is_numbered fs).
Proof. apply sort_by_perm. Qed.

Lemma restart_order_ids_unique fs :
  NoDup (map id fs) -> NoDup (map id (restart_order fs)).
Proof.
  intro Hnd. eapply Permutation_NoDup.
  - apply Permutation_map. apply Permutation_sym. apply restart_order_perm.
  - apply filter_ids_unique. exact Hnd.
Qed.

Lemma restart_order_In fs ft :
  In ft (restart_order fs) <-> In ft fs /\ is_numbered ft = true.
Proof.
  rewrite <- filter_In. split; apply Permutation_in.
  - apply restart_order_perm.
  - apply Permutation_sym. apply restart_order_perm.
Qed.

(** On a layer that accepts edits and whose identifiers are unique, the
    numbered features end up carrying their positions in the sorted order
    and all other features are as before. *)
Lemma restart_layer_features l :
  readOnly l = false -> NoDup (map id (features l)) ->
  restart_layer l =
  mkLayer (map (relabel (map id (restart_order (features l)))) (features l))
          (selectedIds l) false false.
Proof.
  intros Hro Hnd. unfold restart_layer, getFeatures.
  rewrite startEditing_writable by assumption.
  rewrite write_all_open by reflexivity.
  unfold commitChanges. cbn [features selectedIds readOnly]. f_equal.
  rewrite apply_writes_pointwise. apply map_ext. intro ft.
  unfold renumber_writes, relabel.
  rewrite <- sorted_numbered_features, map_map.
  apply renumber_apply.
  rewrite <- (map_map feature id), sorted_numbered_features.
  apply restart_order_ids_unique. exact Hnd.
Qed.

Lemma relabel_id order ft : id (relabel order ft) = id ft.
Proof. unfold relabel. destruct (rank (id ft) order 1); reflexivity. Qed.

Lemma relabel_idempotent order ft :
  relabel order (relabel order ft) = relabel order ft.
Proof.
  unfold relabel. destruct (rank (id ft) order 1) as [v|] eqn:E.
  - cbn [id]. rewrite E. reflexivity.
  - rewrite E. reflexivity.
Qed.

Section UniqueRestart.

Variable fs : list Feature.
Hypothesis ids_unique : NoDup (map id fs).

Lemma unnumbered_not_ordered ft :
  In ft fs -> is_numbered ft = false ->
  ~ In (id ft) (map id (restart_order fs)).
Proof.
  intros Hin Hn Hord. apply in_map_iff in Hord as [g [Hid Hg]].
  apply restart_order_In in Hg as [Hg Hgn].
  rewrite (id_determines fs ids_unique g ft Hg Hin Hid) in Hgn. congruence.
Qed.

Lemma relabel_unnumbered ft :
  In ft fs -> is_numbered ft = false ->
  relabel (map id (restart_order fs)) ft = ft.
Proof.
  intros Hin Hn. unfold relabel.
  rewrite rank_absent; [reflexivity|].
  apply unnumbered_not_ordered; assumption.
Qed.

Lemma relabel_numbered ft :
  In ft fs -> is_numbered ft = true ->
  exists v, rank (id ft) (map id (restart_order fs)) 1 = Some v /\ 1 <= v /\
            relabel (map id (restart_order fs)) ft = mkFeature (id ft) (Some v).
Proof.
  intros Hin Hn.
  destruct (rank_present (id ft) (map id (restart_order fs)) 1)
    as [v [Hv Hle]].
  { apply in_map. apply restart_order_In. split; assumption. }
  exists v. split; [exact Hv|]. split; [exact Hle|].
  unfold relabel. rewrite Hv. reflexivity.
Qed.

Lemma relabel_keeps_numbered ft :
  In ft fs ->
  is_numbered (relabel (map id (restart_order fs)) ft) = is_numbered ft.
Proof.
  intro Hin. destruct (is_numbered ft) eqn:Hn.
  - destruct (relabel_numbered ft Hin Hn) as [v [_ [Hle ->]]].
    unfold is_numbered. simpl. destruct (Z.gtb_spec v 0); [reflexivity|lia].
  - rewrite relabel_unnumbered by assumption. exact Hn.
Qed.

End UniqueRestart.

End Restart.

(** C5.  On a layer that accepts edits and whose feature identifiers are
    unique, [restart_numbering] works through the features whose number is
    present and positive in an order that is a rearrangement of them,
    ascending by current number, with features of equal number in
    enumeration order; the feature at position k of that order (counted
    from 0) ends with the number k + 1, and every feature whose number is
    missing or not positive keeps its value.  No feature is added, removed
    or moved. *)
Theorem restart_numbering_renumbers (s : AutoNumbering) (l : Layer) :
  layer s = Some l -> readOnly l = false -> NoDup (map id (features l)) ->
  exists l' order,
    layer (restart_numbering s) = Some l' /\
    map id (features l') = map id (features l) /\
    Permutation order (filter is_numbered (features l)) /\
    StronglySorted (fun a b => field_key a <= field_key b) order /\
    (forall v, filter (fun ft => field_key ft =? v) order =
               filter (fun ft => field_key ft =? v)
                      (filter is_numbered (features l))) /\
    (forall k ft, nth_error order k = Some ft ->
                  attribute (features l') (id ft) =
                    Some (Some (Z.of_nat k + 1))) /\
    (forall ft, In ft (features l) -> is_numbered ft = false ->
                attribute (features l') (id ft) = Some (number ft)).
Proof.
  intros Hl Hro Hnd.
  exists (restart_layer l), (restart_order (features l)).
  split; [unfold restart_numbering; rewrite Hl; reflexivity|].
  rewrite restart_layer_features by assumption. cbn [features].
  split.
  { rewrite map_map. apply map_ext. intro ft. apply relabel_id. }
  split; [apply restart_order_perm|].
  split; [apply sort_by_sorted|].
  split; [intro v; apply sort_by_stable|].
  split.
  - intros k ft Hk.
    assert (Hin : In ft (features l)).
    { apply nth_error_In in Hk. apply restart_order_In in Hk. tauto. }
    rewrite attribute_map by (try assumption; apply relabel_id).
    unfold relabel.
    rewrite (rank_nth (map id (restart_order (features l))) k 1 (id ft)).
    + cbn [number]. do 2 f_equal. lia.
    + apply restart_order_ids_unique. exact Hnd.
    + apply map_nth_error. exact Hk.
  - intros ft Hin Hn.
    rewrite attribute_map by (try assumption; apply relabel_id).
    rewrite relabel_unnumbered by assumption. reflexivity.
Qed.

Lemma restart_numbering_renumbers_witness :
  layer example_state = Some example_layer /\
  readOnly example_layer = false /\
  NoDup (map id (features example_layer)) /\
  exists l' order,
    layer (restart_numbering example_state) = Some l' /\
    map id (features l') = map id (features example_layer) /\
    Permutation order (filter is_numbered (features example_layer)) /\
    StronglySorted (fun a b => field_key a <= field_key b) order /\
    (forall v, filter (fun ft => field_key ft =? v) order =
               filter (fun ft => field_key ft =? v)
                      (filter is_numbered (features example_layer))) /\
    (forall k ft, nth_error order k = Some ft ->
                  attribute (features l') (id ft) =
                    Some (Some (Z.of_nat k + 1))) /\
    (forall ft, In ft (features example_layer) -> is_numbered ft = false ->
                attribute (features l') (id ft) = Some (number ft)).
Proof.
  assert (Hnd : NoDup (map id (features example_layer))).
  { repeat constructor; simpl; intuition discriminate. }
  split; [reflexivity|]. split; [reflexivity|]. split; [exact Hnd|].
  exact (restart_numbering_renumbers example_state example_layer
           eq_refl eq_refl Hnd).
Defined.

(** The example of the specification: A, B, C numbered 5, 2, 8 and D
    unnumbered become A = 2, B = 1, C = 3, D unnumbered. *)
Example restart_numbering_example :
  field_values (restart_numbering example_state) =
  [Some 2; Some 1; Some 3; None].
Proof. reflexivity. Qed.

(** Features of equal number are renumbered in enumeration order. *)
Example restart_numbering_ties :
  field_values
    (restart_numbering
       (mkAutoNumbering
          (Some (mkLayer [mkFeature 1 (Some 7); mkFeature 2 (Some 3);
                          mkFeature 3 (Some 7); mkFeature 4 (Some 0);
                          mkFeature 5 (Some 3)] [] false false))
          [] false false [])) =
  [Some 3; Some 1; Some 4; Some 0; Some 2].
Proof. reflexivity. Qed.

(** *** Restarting twice *)

Section RestartTwice.

Variable fs : list Feature.
Hypothesis ids_unique : NoDup (map id fs).

Lemma numbered_after_restart :
  filter is_numbered (map (relabel (map id (restart_order fs))) fs) =
  map (relabel (map id (restart_order fs))) (filter is_numbered fs).
Proof.
  rewrite filter_map_comm. f_equal. apply filter_ext_in.
  intros ft Hft. apply relabel_keeps_numbered; assumption.
Qed.

Lemma numbers_after_restart :
  map number (map (relabel (map id (restart_order fs))) (restart_order fs)) =
  map Some (numbers_from 1 (length (restart_order fs))).
Proof.
  rewrite <- (length_map id).
  rewrite <- rank_self by (apply restart_order_ids_unique; exact ids_unique).
  rewrite !map_map. apply map_ext_in. intros ft Hft.
  apply restart_order_In in Hft as [Hin Hn].
  destruct (relabel_numbered fs ft Hin Hn) as [v [Hv [_ Hr]]].
  rewrite Hr, Hv. reflexivity.
Qed.

Lemma keys_after_restart :
  map field_key
      (map (relabel (map id (restart_order fs))) (restart_order fs)) =
  numbers_from 1 (length (restart_order fs)).
Proof.
  change field_key
    with (fun ft => match number ft with Some v => v | None => 0 end).
  rewrite <- (map_map number
                (fun o : option Z => match o with Some v => v | None => 0 end)).
  rewrite numbers_after_restart, map_map. apply map_id.
Qed.

(** The second pass visits the features in the order of the first. *)
Lemma restart_order_after_restart :
  restart_order (map (relabel (map id (restart_order fs))) fs) =
  map (relabel (map id (restart_order fs))) (restart_order fs).
Proof.
  unfold restart_order at 1. rewrite numbered_after_restart.
  apply perm_same_keys with (f := field_key).
  - eapply perm_trans; [apply sort_by_perm|].
    apply Permutation_map. apply Permutation_sym. apply restart_order_perm.
  - apply sorted_perm_unique.
    + apply sorted_keys. apply sort_by_sorted.
    + rewrite keys_after_restart. apply numbers_from_sorted.
    + apply Permutation_map.
      eapply perm_trans; [apply sort_by_perm|].
      apply Permutation_map. apply Permutation_sym. apply restart_order_perm.
  - rewrite keys_after_restart. apply numbers_from_NoDup.
Qed.

Lemma restart_features_twice :
  map (relabel
         (map id (restart_order
                    (map (relabel (map id (restart_order fs))) fs))))
      (map (relabel (map id (restart_order fs))) fs) =
  map (relabel (map id (restart_order fs))) fs.
Proof.
  rewrite restart_order_after_restart.
  replace (map id (map (relabel (map id (restart_order fs)))
                       (restart_order fs)))
    with (map id (restart_order fs))
    by (rewrite map_map; apply map_ext; intro ft;
        symmetry; apply relabel_id).
  rewrite map_map. apply map_ext. intro ft. apply relabel_idempotent.
Qed.

End RestartTwice.

Lemma restart_layer_closed l :
  readOnly l = true -> editable l = false -> restart_layer l = commitChanges l.
Proof.
  intros Hro He. unfold restart_layer, startEditing. rewrite Hro.
  rewrite write_all_closed by assumption. reflexivity.
Qed.

Lemma restart_layer_twice l :
  NoDup (map id (features l)) ->
  restart_layer (restart_layer l) = restart_layer l.
Proof.
  intro Hnd. destruct (readOnly l) eqn:Hro.
  - assert (Hro' : readOnly (restart_layer l) = true).
    { unfold restart_layer, startEditing. rewrite Hro.
      destruct (editable l) eqn:He.
      - rewrite write_all_open by assumption. exact Hro.
      - rewrite write_all_closed by assumption. exact Hro. }
    rewrite restart_layer_closed; [reflexivity | exact Hro' | reflexivity].
  - rewrite (restart_layer_features l) by assumption.
    rewrite restart_layer_features.
    + cbn [features selectedIds]. f_equal.
      apply restart_features_twice. exact Hnd.
    + reflexivity.
    + cbn [features]. rewrite map_map.
      erewrite map_ext; [exact Hnd|]. intro ft. apply relabel_id.
Qed.

(** C6.  On a layer whose feature identifiers are unique, a second
    [restart_numbering] right after the first changes nothing: the
    controller, and with it the field value of every feature, is the same
    after two calls as after one. *)
Theorem restart_numbering_idempotent (s : AutoNumbering) (l : Layer) :
  layer s = Some l -> NoDup (map id (features l)) ->
  restart_numbering (restart_numbering s) = restart_numbering s /\
  field_values (restart_numbering (restart_numbering s)) =
    field_values (restart_numbering s).
Proof.
  intros Hl Hnd.
  assert (H : restart_numbering (restart_numbering s) = restart_numbering s).
  { unfold restart_numbering. rewrite Hl. cbn [layer history active
      undo_btn messageBar]. rewrite restart_layer_twice by assumption.
    reflexivity. }
  split; [exact H | rewrite H; reflexivity].
Qed.

Lemma restart_numbering_idempotent_witness :
  layer example_state = Some example_layer /\
  NoDup (map id (features example_layer)) /\
  restart_numbering (restart_numbering example_state) =
    restart_numbering example_state /\
  field_values (restart_numbering (restart_numbering example_state)) =
    field_values (restart_numbering example_state).
Proof.
  assert (Hnd : NoDup (map id (features example_layer))).
  { repeat constructor; simpl; intuition discriminate. }
  split; [reflexivity|]. split; [exact Hnd|].
  exact (restart_numbering_idempotent example_state example_layer
           eq_refl Hnd).
Defined.

(** ** Numbering a fresh layer click by click *)

Section FreshLayer.

Lemma filter_id_absent fid fs :
  ~ In fid (map id fs) -> filter (fun g => id g =? fid) fs = [].
Proof.
  induction fs as [|g fs IH]; simpl; intro H.
  - reflexivity.
  - destruct (Z.eqb_spec (id g) fid) as [E|E].
    + exfalso. apply H. left. exact E.
    + apply IH. intro Hin. apply H. right. exact Hin.
Qed.

Lemma filter_id_unique fs ft :
  NoDup (map id fs) -> In ft fs ->
  filter (fun g => id g =? id ft) fs = [ft].
Proof.
  induction fs as [|g fs IH]; simpl; intros Hnd Hin.
  - contradiction.
  - inversion Hnd as [|? ? Hg Hnd']; subst.
    destruct Hin as [->|Hin].
    + rewrite Z.eqb_refl, filter_id_absent by assumption. reflexivity.
    + destruct (Z.eqb_spec (id g) (id ft)) as [E|E].
      * exfalso. apply Hg. rewrite E. apply in_map. exact Hin.
      * apply IH; assumption.
Qed.

(** Clicking one feature of a layer with unique identifiers selects it and
    nothing else. *)
Lemma select_one l ft :
  NoDup (map id (features l)) -> In ft (features l) ->
  selectedFeatures (selectByIds [id ft] l) = [ft].
Proof.
  intros Hnd Hin. unfold selectedFeatures, selectByIds, isSelected.
  cbn [features selectedIds existsb].
  rewrite <- (filter_id_unique (features l) ft Hnd Hin).
  apply filter_ext. intro g. apply orb_false_r.
Qed.

Lemma scan_max_set fid v fs :
  hasFeature fid fs = true -> scan_max fs 0 <= v ->
  scan_max (map (setNumber fid (Some v)) fs) 0 = v.
Proof.
  intros Hhas Hv.
  pose proof (scan_max_ge fs 0 ltac:(lia)) as H0.
  apply Z.le_antisymm.
  - apply scan_max_upper; [lia|]. intros g' w Hg' Hw.
    apply in_map_iff in Hg' as [g [<- Hg]]. unfold setNumber in Hw.
    destruct (id g =? fid).
    + simpl in Hw. injection Hw as <-. lia.
    + pose proof (scan_max_lower fs g w Hg Hw). lia.
  - apply hasFeature_In, in_map_iff in Hhas as [g [Hid Hg]].
    apply scan_max_lower with (setNumber fid (Some v) g).
    + apply in_map. exact Hg.
    + unfold setNumber. rewrite Hid, Z.eqb_refl. reflexivity.
Qed.

Lemma numbered_in_order_next done f ft :
  ~ In f done ->
  setNumber f (Some (Z.of_nat (length done) + 1)) (numbered_in_order done ft)
  = numbered_in_order (done ++ [f]) ft.
Proof.
  intro Hf. unfold setNumber, numbered_in_order. cbn [id].
  destruct (Z.eqb_spec (id ft) f) as [E|E].
  - rewrite E, rank_app_skip by assumption. cbn [rank].
    rewrite Z.eqb_refl. do 2 f_equal. lia.
  - f_equal. destruct (in_dec Z.eq_dec (id ft) done) as [Hin|Hin].
    + rewrite rank_app_keep by assumption. reflexivity.
    + rewrite rank_app_skip, (rank_absent _ done) by assumption.
      cbn [rank].
      destruct (Z.eqb_spec f (id ft)); [congruence | reflexivity].
Qed.

Lemma select_each_numbers (fs0 : list Feature) (todo : list FeatureId) :
  NoDup (map id fs0) ->
  forall done s l,
    active s = true -> layer s = Some l -> readOnly l = false ->
    features l = map (numbered_in_order done) fs0 ->
    scan_max (features l) 0 = Z.of_nat (length done) ->
    NoDup (done ++ todo) -> incl todo (map id fs0) ->
    exists s' l',
      fold_left (fun o fid => and_then o (on_selection_changed [fid]))
                todo (Returned s) = Returned s' /\
      layer s' = Some l' /\
      features l' = map (numbered_in_order (done ++ todo)) fs0.
Proof.
  intro Hnd0. induction todo as [|f todo IH];
    intros done s l Ha Hl Hro Hfs Hmax Hnd Hincl.
  - exists s, l. rewrite app_nil_r. repeat split; assumption.
  - assert (Hf : ~ In f done).
    { intro Hin. apply NoDup_remove_2 in Hnd. apply Hnd.
      apply in_or_app. left. exact Hin. }
    destruct (proj1 (in_map_iff id fs0 f) (Hincl f (or_introl eq_refl)))
      as [ft0 [Hid0 Hin0]].
    set (ft := numbered_in_order done ft0).
    assert (Hin : In ft (features l))
      by (rewrite Hfs; apply in_map; exact Hin0).
    assert (Hidft : id ft = f) by exact Hid0.
    assert (Hndl : NoDup (map id (features l))).
    { rewrite Hfs, map_map. exact Hnd0. }
    assert (Hsel : selectedFeatures (selectByIds [f] l) = [ft])
      by (rewrite <- Hidft; apply select_one; assumption).
    assert (Hunnum : is_numbered ft = false).
    { unfold is_numbered, ft, numbered_in_order. cbn [number].
      rewrite Hid0, rank_absent by assumption. reflexivity. }
    cbn [fold_left and_then]. unfold on_selection_changed.
    rewrite (number_selected_assigns (set_selection [f] s)
               (selectByIds [f] l) ft);
      [| exact Ha | unfold set_selection; rewrite Hl; reflexivity
       | exact Hsel | exact Hunnum].
    rewrite assigned_writable by assumption.
    assert (Hnext : next_number (selectByIds [f] l) =
                    Z.of_nat (length done) + 1).
    { unfold next_number, getFeatures. cbn [features selectByIds].
      rewrite Hmax. reflexivity. }
    rewrite Hnext, Hidft. cbn [features selectByIds selectedIds].
    match goal with
    | |- context [Returned (mkAutoNumbering (Some ?l1) ?h ?a ?b ?m)] =>
      destruct (IH (done ++ [f]) (mkAutoNumbering (Some l1) h a b m) l1)
        as [s' [l' [Hrun [Hl' Hfs']]]];
        [ exact Ha | reflexivity | reflexivity | | | | | ]
    end.
    5:{ exists s', l'. split; [exact Hrun|]. split; [exact Hl'|].
        rewrite Hfs', <- app_assoc. reflexivity. }
    + cbn [features]. rewrite Hfs, map_map. apply map_ext.
      intro g. apply numbered_in_order_next. exact Hf.
    + cbn [features]. rewrite length_app, Nat2Z.inj_add. simpl.
      apply scan_max_set; [|lia].
      apply hasFeature_In. rewrite <- Hidft. apply in_map. exact Hin.
    + rewrite <- app_assoc. exact Hnd.
    + intros g Hg. apply Hincl. right. exact Hg.
Qed.

Lemma NoDup_map_Some (A : Type) (l : list A) :
  NoDup l -> NoDup (map Some l).
Proof.
  induction 1 as [|x l Hx Hnd IH]; simpl; constructor.
  - intro Hin. apply in_map_iff in Hin as [y [Hy Hin]].
    injection Hy as ->. contradiction.
  - exact IH.
Qed.

End FreshLayer.

(** C1.  On a layer that accepts edits, with unique feature identifiers and
    n features none of which is numbered, clicking every feature once, in
    any order, ends with the field values being a rearrangement of
    1, ..., n, each occurring once; the feature clicked at position k
    (counted from 0) carries k + 1. *)
Theorem select_each_assigns_1_to_n (s : AutoNumbering) (l : Layer)
    (clicks : list FeatureId) :
  active s = true -> layer s = Some l -> readOnly l = false ->
  NoDup (map id (features l)) ->
  (forall ft, In ft (features l) -> number ft = None) ->
  Permutation clicks (map id (features l)) ->
  exists s' l',
    select_each clicks s = Returned s' /\ layer s' = Some l' /\
    Permutation (field_values s')
                (map Some (numbers_from 1 (length (features l)))) /\
    NoDup (field_values s') /\
    (forall k fid, nth_error clicks k = Some fid ->
                   attribute (features l') fid =
                     Some (Some (Z.of_nat k + 1))).
Proof.
  intros Ha Hl Hro Hnd Hnone Hperm.
  assert (Hndc : NoDup clicks).
  { eapply Permutation_NoDup; [apply Permutation_sym; exact Hperm|].
    exact Hnd. }
  destruct (select_each_numbers (features l) clicks Hnd [] s l)
    as [s' [l' [Hrun [Hl' Hfs']]]]; try assumption.
  - rewrite <- (map_id (features l)) at 1. apply map_ext_in.
    intros ft Hft. unfold numbered_in_order. simpl.
    rewrite <- (Hnone ft Hft). symmetry. apply feature_eta.
  - apply Z.le_antisymm; [|apply scan_max_ge; lia].
    apply scan_max_upper; [lia|]. intros ft v Hft Hv.
    rewrite (Hnone ft Hft) in Hv. discriminate.
  - intros f Hf. eapply Permutation_in; eassumption.
  - simpl in Hfs'.
    assert (Hvals : Permutation (field_values s')
                      (map Some (numbers_from 1 (length (features l))))).
    { unfold field_values. rewrite Hl', Hfs', map_map.
      unfold numbered_in_order. cbn [number].
      rewrite <- (map_map id (fun fid => rank fid clicks 1)).
      replace (length (features l)) with (length clicks)
        by (rewrite (Permutation_length Hperm); apply length_map).
      rewrite <- rank_self by assumption.
      apply Permutation_map. apply Permutation_sym. exact Hperm. }
    exists s', l'. split; [exact Hrun|]. split; [exact Hl'|].
    split; [exact Hvals|]. split.
    + eapply Permutation_NoDup; [apply Permutation_sym; exact Hvals|].
      apply NoDup_map_Some. apply numbers_from_NoDup.
    + intros k fid Hk.
      assert (Hin : In fid (map id (features l))).
      { eapply Permutation_in; [exact Hperm|].
        eapply nth_error_In. exact Hk. }
      apply in_map_iff in Hin as [ft [<- Hft]].
      rewrite Hfs'.
      rewrite attribute_map by (try assumption; reflexivity).
      unfold numbered_in_order. cbn [number].
      rewrite (rank_nth clicks k 1 (id ft)) by assumption.
      do 2 f_equal. lia.
Qed.

Lemma select_each_assigns_1_to_n_witness :
  active fresh_state = true /\
  layer fresh_state = Some fresh_layer /\
  readOnly fresh_layer = false /\
  NoDup (map id (features fresh_layer)) /\
  (forall ft, In ft (features fresh_layer) -> number ft = None) /\
  Permutation [3; 1; 2] (map id (features fresh_layer)) /\
  exists s' l',
    select_each [3; 1; 2] fresh_state = Returned s' /\ layer s' = Some l' /\
    Permutation (field_values s')
                (map Some (numbers_from 1 (length (features fresh_layer))))
    /\ NoDup (field_values s') /\
    (forall k fid, nth_error [3; 1; 2] k = Some fid ->
                   attribute (features l') fid =
                     Some (Some (Z.of_nat k + 1))).
Proof.
  assert (Hnd : NoDup (map id (features fresh_layer))).
  { repeat constructor; simpl; intuition discriminate. }
  assert (Hnone : forall ft, In ft (features fresh_layer) ->
                             number ft = None).
  { simpl. intros ft [<- | [<- | [<- | []]]]; reflexivity. }
  assert (Hperm : Permutation [3; 1; 2] (map id (features fresh_layer))).
  { simpl. apply Permutation_sym.
    apply (Permutation_cons_app [3] [2] 1). apply perm_swap. }
  split; [reflexivity|]. split; [reflexivity|]. split; [reflexivity|].
  split; [exact Hnd|]. split; [exact Hnone|]. split; [exact Hperm|].
  exact (select_each_assigns_1_to_n fresh_state fresh_layer [3; 1; 2]
           eq_refl eq_refl eq_refl Hnd Hnone Hperm).
Defined.

(** The run of the witness, evaluated. *)
Example select_each_example :
  option_map field_values
    (match select_each [3; 1; 2] fresh_state with
     | Returned s' => Some s'
     | AttributeError _ => None
     end) = Some [Some 2; Some 3; Some 1].
Proof. reflexivity. Qed.

(** ** Further properties of number_selected *)

Section MoreNumberSelected.

(** The layer [number_selected], [undo_last] and the other writers leave
    after one write between [startEditing] and [commitChanges]. *)
Lemma written_layer l fid v :
  commitChanges (fst (changeAttributeValue (startEditing l) fid v)) =
  mkLayer (if editable (startEditing l)
           then map (setNumber fid v) (features l) else features l)
          (selectedIds l) (readOnly l) false.
Proof.
  assert (Hf : features (startEditing l) = features l)
    by (unfold startEditing; destruct (readOnly l); reflexivity).
  assert (Hs : selectedIds (startEditing l) = selectedIds l)
    by (unfold startEditing; destruct (readOnly l); reflexivity).
  assert (Hr : readOnly (startEditing l) = readOnly l)
    by (unfold startEditing; destruct (readOnly l) eqn:E;
        [exact E | reflexivity]).
  destruct (editable (startEditing l)) eqn:He.
  - rewrite changeAttributeValue_open by assumption.
    unfold commitChanges. cbn [fst features selectedIds readOnly].
    rewrite Hf, Hs, Hr. reflexivity.
  - rewrite changeAttributeValue_closed by assumption.
    unfold commitChanges. cbn [fst]. rewrite Hf, Hs, Hr. reflexivity.
Qed.

Lemma isSelected_same_id l g ft :
  id g = id ft -> isSelected l g = isSelected l ft.
Proof. intro H. unfold isSelected. rewrite H. reflexivity. Qed.

Lemma selected_isSelected l ft :
  selectedFeatures l = [ft] -> isSelected l ft = true.
Proof.
  intro H. unfold selectedFeatures in H.
  assert (Hin : In ft (filter (isSelected l) (features l)))
    by (rewrite H; left; reflexivity).
  apply filter_In in Hin. tauto.
Qed.

(** A feature that is not selected is none of the features a write to the
    selected one touches. *)
Lemma setNumber_unselected l ft g v :
  selectedFeatures l = [ft] -> isSelected l g = false ->
  setNumber (id ft) v g = g.
Proof.
  intros Hsel Hg. unfold setNumber.
  destruct (Z.eqb_spec (id g) (id ft)) as [E|E]; [|reflexivity].
  rewrite (isSelected_same_id l g ft E) in Hg.
  rewrite (selected_isSelected l ft Hsel) in Hg. discriminate.
Qed.

Lemma selectedFeatures_written l ft v sel ro ed :
  selectedFeatures l = [ft] -> sel = selectedIds l ->
  selectedFeatures
    (mkLayer (map (setNumber (id ft) v) (features l)) sel ro ed) =
  [mkFeature (id ft) v].
Proof.
  intros Hsel ->. unfold selectedFeatures. cbn [features].
  rewrite filter_map_comm.
  replace (filter _ (features l)) with (filter (isSelected l) (features l)).
  - fold (selectedFeatures l). rewrite Hsel. simpl.
    unfold setNumber. rewrite Z.eqb_refl. reflexivity.
  - apply filter_ext. intro g. unfold isSelected. cbn [selectedIds].
    rewrite setNumber_id. reflexivity.
Qed.

End MoreNumberSelected.

(** X1.  On a layer that accepts edits, a second [number_selected] on the
    same selection does nothing: the feature numbered by the first call is
    skipped by the second, so a signal delivered twice numbers once. *)
Theorem number_selected_idempotent (s : AutoNumbering) :
  (forall l, layer s = Some l -> readOnly l = false) ->
  and_then (number_selected s) number_selected = number_selected s.
Proof.
  intro Hro. destruct (number_selected s) as [s'|s'] eqn:H; [|reflexivity].
  cbn [and_then].
  destruct (number_selected_inv s s' H) as [-> | [l [ft [Ha [Hl [Hsel [Hn ->]]]]]]].
  - exact H.
  - rewrite assigned_writable by (try assumption; apply Hro; assumption).
    unfold number_selected. cbn [active layer]. rewrite Ha. cbn [negb].
    rewrite (selectedFeatures_written l ft) by (try assumption; reflexivity).
    unfold is_numbered. cbn [number].
    pose proof (next_number_positive l).
    destruct (Z.gtb_spec (next_number l) 0); [reflexivity | lia].
Qed.

Lemma number_selected_idempotent_witness :
  (forall l, layer (set_selection [2] fresh_state) = Some l ->
             readOnly l = false) /\
  and_then (number_selected (set_selection [2] fresh_state)) number_selected
  = number_selected (set_selection [2] fresh_state).
Proof.
  assert (H : forall l, layer (set_selection [2] fresh_state) = Some l ->
                        readOnly l = false).
  { intros l Hl. injection Hl as <-. reflexivity. }
  split; [exact H|].
  exact (number_selected_idempotent (set_selection [2] fresh_state) H).
Defined.

(** X2.  [number_selected] touches nothing but the number of the selected
    feature: the features keep their identifiers and their order, the
    selection, the provider and the activation flag are as before, and
    every feature that is not selected keeps its place and its number. *)
Theorem number_selected_frame (s s' : AutoNumbering) (l : Layer) :
  number_selected s = Returned s' -> layer s = Some l ->
  exists l',
    layer s' = Some l' /\
    map id (features l') = map id (features l) /\
    selectedIds l' = selectedIds l /\ readOnly l' = readOnly l /\
    active s' = active s /\
    (forall i g, nth_error (features l) i = Some g ->
                 isSelected l g = false ->
                 nth_error (features l') i = Some g).
Proof.
  intros H Hl.
  destruct (number_selected_inv s s' H)
    as [-> | [l0 [ft [Ha [Hl0 [Hsel [Hn ->]]]]]]].
  - exists l. repeat split; auto.
  - assert (l0 = l) by congruence. subst l0.
    unfold assigned. rewrite written_layer. eexists.
    split; [reflexivity|]. cbn [features selectedIds readOnly active].
    split.
    { destruct (editable (startEditing l)); [|reflexivity].
      rewrite map_map. apply map_ext. intro g. apply setNumber_id. }
    split; [reflexivity|]. split; [reflexivity|]. split; [reflexivity|].
    intros i g Hi Hg. destruct (editable (startEditing l)); [|exact Hi].
    rewrite nth_error_map, Hi. simpl.
    rewrite (setNumber_unselected l ft g) by assumption. reflexivity.
Qed.

Lemma number_selected_frame_witness :
  number_selected (set_selection [2] fresh_state) =
    Returned (mkAutoNumbering
                (Some (mkLayer [mkFeature 1 None; mkFeature 2 (Some 1);
                                mkFeature 3 None] [2] false false))
                [mkUndo 2 None 1] true true [MsgSuccess 1]) /\
  layer (set_selection [2] fresh_state) =
    Some (selectByIds [2] fresh_layer) /\
  exists l',
    Some (mkLayer [mkFeature 1 None; mkFeature 2 (Some 1);
                   mkFeature 3 None] [2] false false) = Some l' /\
    map id (features l') = map id (features (selectByIds [2] fresh_layer)) /\
    selectedIds l' = selectedIds (selectByIds [2] fresh_layer) /\
    readOnly l' = readOnly (selectByIds [2] fresh_layer) /\
    true = active (set_selection [2] fresh_state) /\
    (forall i g,
        nth_error (features (selectByIds [2] fresh_layer)) i = Some g ->
        isSelected (selectByIds [2] fresh_layer) g = false ->
        nth_error (features l') i = Some g).
Proof.
  split; [reflexivity|]. split; [reflexivity|].
  exact (number_selected_frame (set_selection [2] fresh_state) _
           (selectByIds [2] fresh_layer) eq_refl eq_refl).
Defined.

(** ** Positive numbers stay distinct *)

Section Distinct.

Lemma positive_numbers_In fs w :
  In w (positive_numbers fs) <->
  exists g, In g fs /\ number g = Some w /\ 0 < w.
Proof.
  unfold positive_numbers. rewrite in_map_iff. split.
  - intros [g [Hk Hg]]. apply filter_In in Hg as [Hg Hn].
    exists g. split; [exact Hg|].
    unfold is_numbered in Hn. unfold field_key in Hk.
    destruct (number g) as [v|]; [|discriminate]. subst w.
    split; [reflexivity|]. destruct (Z.gtb_spec v 0); [lia|discriminate].
  - intros [g [Hg [Hv Hpos]]]. exists g. split.
    + unfold field_key. rewrite Hv. reflexivity.
    + apply filter_In. split; [exact Hg|].
      unfold is_numbered. rewrite Hv.
      destruct (Z.gtb_spec w 0); [reflexivity|lia].
Qed.

Lemma positive_numbers_below_next l w :
  In w (positive_numbers (features l)) -> w < next_number l.
Proof.
  intro H. apply positive_numbers_In in H as [g [Hg [Hv _]]].
  pose proof (scan_max_lower (features l) g w Hg Hv).
  unfold next_number, getFeatures. lia.
Qed.

Lemma positive_numbers_written fid v fs w :
  In w (positive_numbers (map (setNumber fid (Some v)) fs)) ->
  In w (positive_numbers fs) \/ w = v.
Proof.
  intro H. apply positive_numbers_In in H as [g' [Hg' [Hw Hpos]]].
  apply in_map_iff in Hg' as [g [<- Hg]]. unfold setNumber in Hw.
  destruct (id g =? fid).
  - right. simpl in Hw. congruence.
  - left. apply positive_numbers_In. exists g. auto.
Qed.

Lemma filter_length_le (A : Type) (p q : A -> bool) l :
  (forall x, p x = true -> q x = true) ->
  (length (filter p l) <= length (filter q l))%nat.
Proof.
  intro H. induction l as [|x l IH]; simpl; [lia|].
  destruct (p x) eqn:Hp.
  - rewrite (H x Hp). simpl. lia.
  - destruct (q x); simpl; lia.
Qed.

(** Writing a number larger than all those present to the one feature of
    identifier [fid], which has none, keeps the numbers distinct. *)
Lemma positive_numbers_distinct_written fid v fs :
  (length (filter (fun g => (id g =? fid)%Z) fs) <= 1)%nat ->
  (forall g, In g fs -> id g = fid -> is_numbered g = false) ->
  (forall w, In w (positive_numbers fs) -> w < v) ->
  NoDup (positive_numbers fs) ->
  NoDup (positive_numbers (map (setNumber fid (Some v)) fs)).
Proof.
  induction fs as [|g fs IH]; intros Hone Hun Hlt Hnd.
  - constructor.
  - assert (Hlt' : forall w, In w (positive_numbers fs) -> w < v).
    { intros w Hw. apply Hlt. unfold positive_numbers in *. simpl.
      destruct (is_numbered g); [right|]; exact Hw. }
    assert (Hun' : forall g', In g' fs -> id g' = fid ->
                              is_numbered g' = false)
      by (intros g' Hg'; apply Hun; right; exact Hg').
    cbn [map]. simpl in Hone.
    destruct (Z.eqb_spec (id g) fid) as [E|E].
    + assert (Hnone : hasFeature fid fs = false).
      { unfold hasFeature. apply not_true_is_false. intro Hex.
        apply existsb_exists in Hex as [x [Hx Hid]].
        assert (Hin : In x (filter (fun g0 => id g0 =? fid) fs))
          by (apply filter_In; split; assumption).
        simpl in Hone. destruct (filter _ fs); [contradiction|].
        simpl in Hone. lia. }
      rewrite setNumber_absent by assumption.
      assert (Hg : is_numbered g = false)
        by (apply Hun; [left; reflexivity | exact E]).
      assert (Hnd' : NoDup (positive_numbers fs)).
      { unfold positive_numbers in *. simpl in Hnd.
        rewrite Hg in Hnd. exact Hnd. }
      unfold setNumber. rewrite (proj2 (Z.eqb_eq _ _) E).
      unfold positive_numbers. cbn [filter]. unfold is_numbered at 1.
      cbn [number]. destruct (Z.gtb_spec v 0).
      * cbn [map]. constructor; [|exact Hnd'].
        intro Hin. apply Hlt' in Hin. unfold field_key in Hin.
        simpl in Hin. lia.
      * exact Hnd'.
    + unfold setNumber at 1. rewrite (proj2 (Z.eqb_neq _ _) E).
      assert (IH' : NoDup (positive_numbers
                             (map (setNumber fid (Some v)) fs))).
      { apply IH; try assumption.
        unfold positive_numbers in *. simpl in Hnd.
        destruct (is_numbered g); [inversion Hnd|]; assumption. }
      unfold positive_numbers in *. cbn [filter].
      destruct (is_numbered g) eqn:Hg; [|exact IH'].
      cbn [map]. constructor; [|exact IH'].
      intro Hin. apply positive_numbers_written in Hin as [Hin | Hin].
      * cbn [filter map] in Hnd. rewrite Hg in Hnd. cbn [map] in Hnd.
        inversion Hnd; contradiction.
      * assert (field_key g < v).
        { apply Hlt. unfold positive_numbers. cbn [filter].
          rewrite Hg. left. reflexivity. }
        lia.
Qed.

End Distinct.

(** X3.  [number_selected] never hands out a number twice: the number it
    records is larger than every number any feature holds, and positive
    numbers that were pairwise distinct before the call are pairwise
    distinct after it. *)
Theorem number_selected_keeps_distinct (s s' : AutoNumbering)
    (l l' : Layer) :
  number_selected s = Returned s' ->
  layer s = Some l -> layer s' = Some l' ->
  NoDup (positive_numbers (features l)) ->
  NoDup (positive_numbers (features l')) /\
  (forall r, In r (history s') ->
     In r (history s) \/
     forall g v, In g (features l) -> number g = Some v -> v < new_value r).
Proof.
  intros H Hl Hl' Hnd.
  destruct (number_selected_inv s s' H)
    as [-> | [l0 [ft [Ha [Hl0 [Hsel [Hn ->]]]]]]].
  - assert (l' = l) by congruence. subst l'. auto.
  - assert (l0 = l) by congruence. subst l0. split.
    + unfold assigned in Hl'. cbn [layer] in Hl'.
      rewrite written_layer in Hl'. injection Hl' as <-. cbn [features].
      destruct (editable (startEditing l)); [|exact Hnd].
      apply positive_numbers_distinct_written; try assumption.
      * change 1%nat with (length [ft]). rewrite <- Hsel.
        unfold selectedFeatures. apply filter_length_le.
        intros g Hg. apply Z.eqb_eq in Hg.
        rewrite (isSelected_same_id l g ft Hg).
        apply selected_isSelected. exact Hsel.
      * intros g Hg Hid.
        rewrite (selected_unique l ft g Hsel Hg Hid). exact Hn.
      * apply positive_numbers_below_next.
    + intros r Hr. unfold assigned in Hr. cbn [history] in Hr.
      apply in_app_or in Hr as [Hr | [<- | []]]; [left; exact Hr|].
      right. intros g v Hg Hv. cbn [new_value].
      pose proof (scan_max_lower (features l) g v Hg Hv).
      unfold next_number, getFeatures. lia.
Qed.

Lemma number_selected_keeps_distinct_witness :
  number_selected
    (mkAutoNumbering
       (Some (mkLayer [mkFeature 1 (Some 4); mkFeature 2 None;
                       mkFeature 3 (Some 2)] [2] false false))
       [] true false []) =
    Returned (mkAutoNumbering
                (Some (mkLayer [mkFeature 1 (Some 4); mkFeature 2 (Some 5);
                                mkFeature 3 (Some 2)] [2] false false))
                [mkUndo 2 None 5] true true [MsgSuccess 5]) /\
  NoDup (positive_numbers [mkFeature 1 (Some 4); mkFeature 2 None;
                           mkFeature 3 (Some 2)]) /\
  NoDup (positive_numbers [mkFeature 1 (Some 4); mkFeature 2 (Some 5);
                           mkFeature 3 (Some 2)]) /\
  (forall r, In r [mkUndo 2 None 5] ->
     In r [] \/
     forall g v, In g [mkFeature 1 (Some 4); mkFeature 2 None;
                       mkFeature 3 (Some 2)] ->
                 number g = Some v -> v < new_value r).
Proof.
  assert (Hnd : NoDup (positive_numbers [mkFeature 1 (Some 4);
                                         mkFeature 2 None;
                                         mkFeature 3 (Some 2)])).
  { repeat constructor; simpl; intuition discriminate. }
  split; [reflexivity|]. split; [exact Hnd|].
  exact (number_selected_keeps_distinct
           (mkAutoNumbering
              (Some (mkLayer [mkFeature 1 (Some 4); mkFeature 2 None;
                              mkFeature 3 (Some 2)] [2] false false))
              [] true false [])
           _ _ _ eq_refl eq_refl eq_refl Hnd).
Defined.

(** ** Further properties of undo_last *)

(** X4.  [undo_last] always drops the newest record of a non-empty undo
    stack, whether or not anything is undone.  Without a layer it raises
    [AttributeError] with the record already gone and the button as it
    was.  With a layer it returns, and disables the button exactly when
    the stack has become empty; when the provider refuses the edit, the
    field values and the message bar are as before. *)
Theorem undo_last_pops (s : AutoNumbering) (h : list UndoRecord)
    (r : UndoRecord) :
  history s = h ++ [r] ->
  history (state_of (undo_last s)) = h /\
  (layer s = None ->
   raises (undo_last s) = true /\
   undo_btn (state_of (undo_last s)) = undo_btn s) /\
  (forall l, layer s = Some l ->
     raises (undo_last s) = false /\
     undo_btn (state_of (undo_last s)) =
       match h with [] => false | _ :: _ => undo_btn s end /\
     (readOnly l = true -> editable l = false ->
      field_values (state_of (undo_last s)) = field_values s /\
      messageBar (state_of (undo_last s)) = messageBar s)).
Proof.
  intro Hh. unfold undo_last. rewrite Hh, pop_app_last.
  destruct (layer s) as [l|] eqn:Hl.
  - destruct (changeAttributeValue (startEditing l) (feature_id r)
                                   (old_value r)) as [l2 ok] eqn:Hw.
    cbn [state_of history raises undo_btn].
    split; [reflexivity|]. split; [discriminate|].
    intros l0 Hl0. injection Hl0 as <-.
    split; [reflexivity|]. split; [reflexivity|].
    intros Hro He. unfold startEditing in Hw. rewrite Hro in Hw.
    rewrite changeAttributeValue_closed in Hw by assumption.
    injection Hw as <- <-. unfold field_values. rewrite Hl.
    split; reflexivity.
  - cbn [state_of history raises undo_btn].
    split; [reflexivity|]. split; [split; reflexivity | discriminate].
Qed.

Lemma undo_last_pops_witness :
  history (mkAutoNumbering (Some refused_layer) [mkUndo 1 None 1]
                           true true []) = [] ++ [mkUndo 1 None 1] /\
  history (state_of (undo_last
             (mkAutoNumbering (Some refused_layer) [mkUndo 1 None 1]
                              true true []))) = [] /\
  (layer (mkAutoNumbering (Some refused_layer) [mkUndo 1 None 1]
                          true true []) = None ->
   raises (undo_last
             (mkAutoNumbering (Some refused_layer) [mkUndo 1 None 1]
                              true true [])) = true /\
   undo_btn (state_of (undo_last
               (mkAutoNumbering (Some refused_layer) [mkUndo 1 None 1]
                                true true []))) = true) /\
  (forall l,
     layer (mkAutoNumbering (Some refused_layer) [mkUndo 1 None 1]
                            true true []) = Some l ->
     raises (undo_last
               (mkAutoNumbering (Some refused_layer) [mkUndo 1 None 1]
                                true true [])) = false /\
     undo_btn (state_of (undo_last
                 (mkAutoNumbering (Some refused_layer) [mkUndo 1 None 1]
                                  true true []))) = false /\
     (readOnly l = true -> editable l = false ->
      field_values (state_of (undo_last
                      (mkAutoNumbering (Some refused_layer)
                                       [mkUndo 1 None 1] true true []))) =
        field_values (mkAutoNumbering (Some refused_layer)
                                      [mkUndo 1 None 1] true true []) /\
      messageBar (state_of (undo_last
                    (mkAutoNumbering (Some refused_layer)
                                     [mkUndo 1 None 1] true true []))) =
        [])).
Proof.
  split; [reflexivity|].
  exact (undo_last_pops
           (mkAutoNumbering (Some refused_layer) [mkUndo 1 None 1]
                            true true [])
           [] (mkUndo 1 None 1) eq_refl).
Defined.

Section UndoAll.

Lemma number_selected_returns s l :
  layer s = Some l -> exists s', number_selected s = Returned s'.
Proof.
  intro Hl. unfold number_selected. rewrite Hl.
  destruct (negb (active s)); [eexists; reflexivity|].
  destruct (selectedFeatures l) as [|ft [|ft' sel]];
    try (eexists; reflexivity).
  destruct (is_numbered ft); [eexists; reflexivity|].
  destruct (changeAttributeValue _ _ _) as [l2 [|]]; eexists; reflexivity.
Qed.

Lemma select_each_stuck clicks : forall s,
  fold_left (fun o fid => and_then o (on_selection_changed [fid]))
            clicks (AttributeError s) = AttributeError s.
Proof. induction clicks as [|f clicks IH]; intro s; simpl; auto. Qed.

Lemma select_each_cons f clicks s :
  select_each (f :: clicks) s =
  and_then (on_selection_changed [f] s) (select_each clicks).
Proof.
  unfold select_each. cbn [fold_left and_then].
  destruct (on_selection_changed [f] s); cbn [and_then];
    [reflexivity | apply select_each_stuck].
Qed.

Lemma undo_times_last n : forall s,
  undo_times (S n) s = and_then (undo_times n s) undo_last.
Proof.
  induction n as [|n IH]; intro s.
  - cbn [undo_times and_then]. destruct (undo_last s); reflexivity.
  - change (undo_times (S (S n)) s)
      with (and_then (undo_last s) (undo_times (S n))).
    change (undo_times (S n) s)
      with (and_then (undo_last s) (undo_times n)).
    destruct (undo_last s) as [s'|s']; cbn [and_then];
      [apply IH | reflexivity].
Qed.

Lemma select_each_undo_aux clicks : forall s l,
  layer s = Some l -> readOnly l = false ->
  exists s1 pushed s2 l2,
    select_each clicks s = Returned s1 /\
    history s1 = history s ++ pushed /\
    undo_times (length pushed) s1 = Returned s2 /\
    layer s2 = Some l2 /\ readOnly l2 = false /\
    features l2 = features l /\ history s2 = history s.
Proof.
  induction clicks as [|f clicks IH]; intros s l Hl Hro.
  - exists s, [], s, l. rewrite app_nil_r. repeat split; assumption.
  - rewrite select_each_cons. unfold on_selection_changed.
    set (s0 := set_selection [f] s).
    assert (Hl0 : layer s0 = Some (selectByIds [f] l))
      by (unfold s0, set_selection; rewrite Hl; reflexivity).
    destruct (number_selected_returns s0 _ Hl0) as [s' Hs'].
    rewrite Hs'. cbn [and_then].
    destruct (number_selected_inv s0 s' Hs')
      as [-> | [l0 [ft [Ha [Hl0' [Hsel [Hn ->]]]]]]].
    + destruct (IH s0 (selectByIds [f] l) Hl0 Hro)
        as [s1 [pushed [s2 [l2 [H1 [H2 [H3 [H4 [H5 [H6 H7]]]]]]]]]].
      exists s1, pushed, s2, l2. repeat split; assumption.
    + assert (l0 = selectByIds [f] l) by congruence. subst l0.
      rewrite assigned_writable by assumption.
      set (r := mkUndo (id ft) (number ft)
                       (next_number (selectByIds [f] l))).
      match goal with
      | |- context [select_each clicks
                      (mkAutoNumbering (Some ?l1) ?h ?a ?b ?m)] =>
        destruct (IH (mkAutoNumbering (Some l1) h a b m) l1
                     eq_refl eq_refl)
          as [s1 [pushed [s2 [l2 [H1 [H2 [H3 [H4 [H5 [H6 H7]]]]]]]]]]
      end.
      cbn [history features] in H2, H6, H7.
      destruct (undo_last_restores s2 l2 (history s) r H4 H5 H7)
        as [s3 [l3 [Hu [Hh3 [_ [Hl3 [Hro3 [_ Hf3]]]]]]]].
      exists s1, (r :: pushed), s3, l3.
      split; [exact H1|].
      split; [rewrite H2, <- app_assoc; reflexivity|].
      split.
      { cbn [length]. rewrite undo_times_last, H3. exact Hu. }
      split; [exact Hl3|]. split; [exact Hro3|]. split; [|exact Hh3].
      rewrite Hf3, H6. cbn [feature_id old_value r].
      rewrite (setNumber_restore (selectByIds [f] l) ft) by assumption.
      reflexivity.
Qed.

End UndoAll.

(** X5.  On a layer that accepts edits, any run of single-feature clicks
    can be taken back in full: the clicks return, and as many [undo_last]
    calls as they pushed records give every feature the number it had
    before the first click and leave the undo stack as it was then. *)
Theorem select_each_undo_all (clicks : list FeatureId)
    (s : AutoNumbering) (l : Layer) :
  layer s = Some l -> readOnly l = false ->
  exists s1 pushed s2,
    select_each clicks s = Returned s1 /\
    history s1 = history s ++ pushed /\
    undo_times (length pushed) s1 = Returned s2 /\
    field_values s2 = field_values s /\ history s2 = history s.
Proof.
  intros Hl Hro.
  destruct (select_each_undo_aux clicks s l Hl Hro)
    as [s1 [pushed [s2 [l2 [H1 [H2 [H3 [H4 [_ [H6 H7]]]]]]]]]].
  exists s1, pushed, s2. repeat split; try assumption.
  unfold field_values. rewrite H4, Hl, H6. reflexivity.
Qed.

Lemma select_each_undo_all_witness :
  layer example_state = Some example_layer /\
  readOnly example_layer = false /\
  exists s1 pushed s2,
    select_each [13; 10; 13; 99] example_state = Returned s1 /\
    history s1 = history example_state ++ pushed /\
    undo_times (length pushed) s1 = Returned s2 /\
    field_values s2 = field_values example_state /\
    history s2 = history example_state.
Proof.
  split; [reflexivity|]. split; [reflexivity|].
  exact (select_each_undo_all [13; 10; 13; 99] example_state example_layer
           eq_refl eq_refl).
Defined.

(** ** Further properties of reset_numbers and restart_numbering *)

Section AfterReset.

Lemma reset_layer s l :
  layer s = Some l -> readOnly l = false ->
  layer (reset_numbers true s) =
  Some (mkLayer (map (fun ft => mkFeature (id ft) None) (features l))
                (selectedIds l) false false).
Proof.
  intros Hl Hro. unfold reset_numbers, getFeatures. rewrite Hl.
  cbn [layer]. rewrite startEditing_writable by assumption.
  rewrite write_all_open by reflexivity.
  unfold commitChanges. cbn [features selectedIds readOnly]. do 2 f_equal.
  rewrite apply_writes_pointwise. apply map_ext_in. intros ft Hft.
  apply apply_writes1_clears.
  - intros w Hw. apply in_map_iff in Hw as [g [<- _]]. reflexivity.
  - rewrite map_map. simpl. apply in_map. exact Hft.
Qed.

Lemma scan_max_unnumbered fs :
  (forall ft, In ft fs -> is_numbered ft = false) -> scan_max fs 0 = 0.
Proof.
  intro H. apply Z.le_antisymm; [|apply scan_max_ge; lia].
  apply scan_max_upper; [lia|]. intros ft v Hft Hv.
  specialize (H ft Hft). unfold is_numbered in H. rewrite Hv in H.
  destruct (Z.gtb_spec v 0); [discriminate | lia].
Qed.

End AfterReset.

(** X6.  After a confirmed [reset_numbers] on a layer that accepts edits
    and has unique feature identifiers, numbering starts over: the next
    single feature clicked gets the number 1, and the undo stack holds
    that one assignment only. *)
Theorem reset_then_first_number (s : AutoNumbering) (l : Layer)
    (fid : FeatureId) :
  active s = true -> layer s = Some l -> readOnly l = false ->
  NoDup (map id (features l)) -> In fid (map id (features l)) ->
  exists s' l',
    on_selection_changed [fid] (reset_numbers true s) = Returned s' /\
    layer s' = Some l' /\
    attribute (features l') fid = Some (Some 1) /\
    history s' = [mkUndo fid None 1].
Proof.
  intros Ha Hl Hro Hnd Hin.
  pose proof (reset_layer s l Hl Hro) as Hreset.
  set (fs := map (fun ft => mkFeature (id ft) None) (features l)) in *.
  set (l0 := mkLayer fs (selectedIds l) false false) in *.
  assert (Hids : map id fs = map id (features l))
    by (unfold fs; rewrite map_map; reflexivity).
  assert (Hft : In (mkFeature fid None) fs).
  { apply in_map_iff in Hin as [ft [<- Hft]].
    unfold fs. apply in_map_iff. exists ft. auto. }
  assert (Hsel : selectedFeatures (selectByIds [fid] l0) =
                 [mkFeature fid None]).
  { apply (select_one l0 (mkFeature fid None));
      [cbn [features l0]; rewrite Hids; exact Hnd | exact Hft]. }
  assert (Hnext : next_number (selectByIds [fid] l0) = 1).
  { unfold next_number, getFeatures. cbn [features selectByIds l0].
    rewrite scan_max_unnumbered; [reflexivity|].
    intros ft Hin'. unfold fs in Hin'.
    apply in_map_iff in Hin' as [g [<- _]]. reflexivity. }
  unfold on_selection_changed.
  rewrite (number_selected_assigns _ (selectByIds [fid] l0)
             (mkFeature fid None));
    [ | unfold reset_numbers; rewrite Hl; exact Ha
      | unfold set_selection; rewrite Hreset; reflexivity
      | exact Hsel | reflexivity ].
  rewrite assigned_writable by (try assumption; reflexivity).
  rewrite Hnext. eexists. eexists.
  split; [reflexivity|]. split; [reflexivity|]. split.
  - cbn [features id]. apply attribute_written.
    apply hasFeature_In. cbn [features selectByIds l0].
    rewrite Hids. exact Hin.
  - cbn [history set_selection]. unfold reset_numbers. rewrite Hl.
    reflexivity.
Qed.

Lemma reset_then_first_number_witness :
  active example_state = true /\
  layer example_state = Some example_layer /\
  readOnly example_layer = false /\
  NoDup (map id (features example_layer)) /\
  In 12 (map id (features example_layer)) /\
  exists s' l',
    on_selection_changed [12] (reset_numbers true example_state) =
      Returned s' /\
    layer s' = Some l' /\
    attribute (features l') 12 = Some (Some 1) /\
    history s' = [mkUndo 12 None 1].
Proof.
  assert (Hnd : NoDup (map id (features example_layer))).
  { repeat constructor; simpl; intuition discriminate. }
  assert (Hin : In 12 (map id (features example_layer))).
  { simpl. right. right. left. reflexivity. }
  split; [reflexivity|]. split; [reflexivity|]. split; [reflexivity|].
  split; [exact Hnd|]. split; [exact Hin|].
  exact (reset_then_first_number example_state example_layer 12
           eq_refl eq_refl eq_refl Hnd Hin).
Defined.

(** X7.  On a provider that refuses edits, neither [reset_numbers] nor
    [restart_numbering] changes a field value; the confirmed reset empties
    the undo stack and disables the undo button all the same. *)
Theorem refused_reset_and_restart (s : AutoNumbering) (l : Layer) :
  layer s = Some l -> readOnly l = true -> editable l = false ->
  field_values (reset_numbers true s) = field_values s /\
  history (reset_numbers true s) = [] /\
  undo_btn (reset_numbers true s) = false /\
  field_values (restart_numbering s) = field_values s.
Proof.
  intros Hl Hro He. unfold field_values.
  unfold reset_numbers, restart_numbering, restart_layer.
  rewrite Hl. cbn [layer history undo_btn].
  unfold startEditing. rewrite Hro.
  rewrite !write_all_closed by assumption.
  repeat split; reflexivity.
Qed.

Lemma refused_reset_and_restart_witness :
  layer (mkAutoNumbering
           (Some (mkLayer [mkFeature 1 (Some 3); mkFeature 2 (Some 9)]
                          [] true false))
           [mkUndo 2 None 9] true true []) =
    Some (mkLayer [mkFeature 1 (Some 3); mkFeature 2 (Some 9)]
                  [] true false) /\
  field_values
    (reset_numbers true
       (mkAutoNumbering
          (Some (mkLayer [mkFeature 1 (Some 3); mkFeature 2 (Some 9)]
                         [] true false))
          [mkUndo 2 None 9] true true [])) = [Some 3; Some 9] /\
  history
    (reset_numbers true
       (mkAutoNumbering
          (Some (mkLayer [mkFeature 1 (Some 3); mkFeature 2 (Some 9)]
                         [] true false))
          [mkUndo 2 None 9] true true [])) = [] /\
  undo_btn
    (reset_numbers true
       (mkAutoNumbering
          (Some (mkLayer [mkFeature 1 (Some 3); mkFeature 2 (Some 9)]
                         [] true false))
          [mkUndo 2 None 9] true true [])) = false /\
  field_values
    (restart_numbering
       (mkAutoNumbering
          (Some (mkLayer [mkFeature 1 (Some 3); mkFeature 2 (Some 9)]
                         [] true false))
          [mkUndo 2 None 9] true true [])) = [Some 3; Some 9].
Proof.
  split; [reflexivity|].
  exact (refused_reset_and_restart
           (mkAutoNumbering
              (Some (mkLayer [mkFeature 1 (Some 3); mkFeature 2 (Some 9)]
                             [] true false))
              [mkUndo 2 None 9] true true [])
           (mkLayer [mkFeature 1 (Some 3); mkFeature 2 (Some 9)]
                    [] true false)
           eq_refl eq_refl eq_refl).
Defined.

Section AfterRestart.

Variable fs : list Feature.
Hypothesis ids_unique : NoDup (map id fs).

Lemma numbers_from_In n : forall k z,
  k <= z < k + Z.of_nat n -> In z (numbers_from k n).
Proof.
  induction n as [|n IH]; intros k z Hz.
  - lia.
  - simpl. destruct (Z.eq_dec k z) as [E|E]; [left; exact E|].
    right. apply IH. lia.
Qed.

Lemma restart_order_length :
  length (restart_order fs) = length (positive_numbers fs).
Proof.
  unfold positive_numbers. rewrite length_map.
  apply Permutation_length. apply restart_order_perm.
Qed.

(** The positive numbers after the renumbering are 1, ..., k. *)
Lemma positive_numbers_restarted :
  Permutation
    (positive_numbers (map (relabel (map id (restart_order fs))) fs))
    (numbers_from 1 (length (positive_numbers fs))).
Proof.
  rewrite <- restart_order_length.
  rewrite <- (keys_after_restart fs ids_unique).
  unfold positive_numbers.
  rewrite (numbered_after_restart fs ids_unique).
  do 2 apply Permutation_map.
  apply Permutation_sym. apply restart_order_perm.
Qed.

Lemma scan_max_restarted :
  scan_max (map (relabel (map id (restart_order fs))) fs) 0 =
  Z.of_nat (length (positive_numbers fs)).
Proof.
  set (fs' := map (relabel (map id (restart_order fs))) fs).
  set (k := length (positive_numbers fs)).
  assert (Hin : forall w, In w (positive_numbers fs') <->
                          In w (numbers_from 1 k)).
  { intro w. split; apply Permutation_in;
      [|apply Permutation_sym]; apply positive_numbers_restarted. }
  apply Z.le_antisymm.
  - apply scan_max_upper; [lia|]. intros g v Hg Hv.
    destruct (Z_lt_le_dec 0 v) as [Hpos|Hneg]; [|lia].
    assert (H : In v (numbers_from 1 k)).
    { apply Hin. apply positive_numbers_In. exists g. auto. }
    apply numbers_from_bounds in H. lia.
  - destruct k as [|k'] eqn:Hk;
      [apply scan_max_ge; lia|].
    assert (H : In (Z.of_nat (S k')) (positive_numbers fs')).
    { apply Hin. apply numbers_from_In. lia. }
    apply positive_numbers_In in H as [g [Hg [Hv _]]].
    eapply scan_max_lower; eassumption.
Qed.

Lemma sorted_nth (A : Type) (R : A -> A -> Prop) (l : list A) :
  StronglySorted R l ->
  forall i j x y, (i < j)%nat -> nth_error l i = Some x ->
                  nth_error l j = Some y -> R x y.
Proof.
  induction 1 as [|a l Hs IH Ha]; intros i j x y Hij Hi Hj.
  - destruct i; discriminate.
  - destruct j as [|j]; [lia|]. simpl in Hj. destruct i as [|i].
    + simpl in Hi. injection Hi as <-.
      rewrite Forall_forall in Ha. apply Ha.
      eapply nth_error_In. exact Hj.
    + simpl in Hi. apply (IH i j); [lia | assumption | assumption].
Qed.

(** A numbered feature gets its position in the sorted order. *)
Lemma relabel_position ft :
  In ft fs -> is_numbered ft = true ->
  exists i, nth_error (restart_order fs) i = Some ft /\
            relabel (map id (restart_order fs)) ft =
              mkFeature (id ft) (Some (1 + Z.of_nat i)).
Proof.
  intros Hin Hn.
  assert (Hord : In ft (restart_order fs))
    by (apply restart_order_In; split; assumption).
  apply In_nth_error in Hord as [i Hi]. exists i. split; [exact Hi|].
  unfold relabel.
  rewrite (rank_nth (map id (restart_order fs)) i 1 (id ft)).
  - reflexivity.
  - apply restart_order_ids_unique. exact ids_unique.
  - apply map_nth_error. exact Hi.
Qed.

Lemma restart_monotone a b :
  In a fs -> In b fs -> is_numbered a = true -> is_numbered b = true ->
  field_key a < field_key b ->
  field_key (relabel (map id (restart_order fs)) a) <
  field_key (relabel (map id (restart_order fs)) b).
Proof.
  intros Ha Hb Hna Hnb Hlt.
  destruct (relabel_position a Ha Hna) as [i [Hi ->]].
  destruct (relabel_position b Hb Hnb) as [j [Hj ->]].
  unfold field_key. cbn [number].
  assert (Hs : StronglySorted (fun x y => field_key x <= field_key y)
                              (restart_order fs))
    by apply sort_by_sorted.
  destruct (Nat.lt_trichotomy i j) as [Hij | [Hij | Hij]].
  - lia.
  - subst j. rewrite Hi in Hj. injection Hj as ->. lia.
  - pose proof (sorted_nth _ _ _ Hs j i b a Hij Hj Hi) as Hle.
    simpl in Hle. lia.
Qed.

End AfterRestart.

(** X8.  On a layer that accepts edits and has unique feature identifiers,
    [restart_numbering] leaves the positive numbers dense and distinct:
    with k features numbered before the call, the positive numbers after
    it are a rearrangement of 1, ..., k, whatever gaps or repeats there
    were. *)
Theorem restart_numbering_dense (s : AutoNumbering) (l : Layer) :
  layer s = Some l -> readOnly l = false -> NoDup (map id (features l)) ->
  exists l',
    layer (restart_numbering s) = Some l' /\
    Permutation (positive_numbers (features l'))
                (numbers_from 1 (length (positive_numbers (features l)))) /\
    NoDup (positive_numbers (features l')).
Proof.
  intros Hl Hro Hnd. exists (restart_layer l).
  split; [unfold restart_numbering; rewrite Hl; reflexivity|].
  rewrite restart_layer_features by assumption. cbn [features].
  pose proof (positive_numbers_restarted (features l) Hnd) as Hp.
  split; [exact Hp|].
  eapply Permutation_NoDup; [apply Permutation_sym; exact Hp|].
  apply numbers_from_NoDup.
Qed.

Lemma restart_numbering_dense_witness :
  layer (mkAutoNumbering
           (Some (mkLayer [mkFeature 1 (Some 7); mkFeature 2 (Some 3);
                           mkFeature 3 (Some 7); mkFeature 4 None]
                          [] false false))
           [] false false []) =
    Some (mkLayer [mkFeature 1 (Some 7); mkFeature 2 (Some 3);
                   mkFeature 3 (Some 7); mkFeature 4 None]
                  [] false false) /\
  exists l',
    layer (restart_numbering
             (mkAutoNumbering
                (Some (mkLayer [mkFeature 1 (Some 7); mkFeature 2 (Some 3);
                                mkFeature 3 (Some 7); mkFeature 4 None]
                               [] false false))
                [] false false [])) = Some l' /\
    Permutation (positive_numbers (features l')) (numbers_from 1 3) /\
    NoDup (positive_numbers (features l')).
Proof.
  assert (Hnd : NoDup (map id [mkFeature 1 (Some 7); mkFeature 2 (Some 3);
                               mkFeature 3 (Some 7); mkFeature 4 None])).
  { repeat constructor; simpl; intuition discriminate. }
  split; [reflexivity|].
  exact (restart_numbering_dense
           (mkAutoNumbering
              (Some (mkLayer [mkFeature 1 (Some 7); mkFeature 2 (Some 3);
                              mkFeature 3 (Some 7); mkFeature 4 None]
                             [] false false))
              [] false false [])
           (mkLayer [mkFeature 1 (Some 7); mkFeature 2 (Some 3);
                     mkFeature 3 (Some 7); mkFeature 4 None]
                    [] false false)
           eq_refl eq_refl Hnd).
Defined.

(** X9.  [restart_numbering] keeps the order of the numbers: of two
    numbered features, the one with the smaller number before the call
    has the smaller number after it. *)
Theorem restart_numbering_monotone (s : AutoNumbering) (l : Layer)
    (a b : Feature) :
  layer s = Some l -> readOnly l = false -> NoDup (map id (features l)) ->
  In a (features l) -> In b (features l) ->
  is_numbered a = true -> is_numbered b = true ->
  field_key a < field_key b ->
  exists l' va vb,
    layer (restart_numbering s) = Some l' /\
    attribute (features l') (id a) = Some (Some va) /\
    attribute (features l') (id b) = Some (Some vb) /\
    va < vb.
Proof.
  intros Hl Hro Hnd Ha Hb Hna Hnb Hlt.
  pose proof (restart_monotone (features l) Hnd a b Ha Hb Hna Hnb Hlt)
    as Hmono.
  destruct (relabel_position (features l) Hnd a Ha Hna) as [i [_ Hra]].
  destruct (relabel_position (features l) Hnd b Hb Hnb) as [j [_ Hrb]].
  exists (restart_layer l), (1 + Z.of_nat i), (1 + Z.of_nat j).
  split; [unfold restart_numbering; rewrite Hl; reflexivity|].
  rewrite restart_layer_features by assumption. cbn [features].
  rewrite !attribute_map by (try assumption; apply relabel_id).
  rewrite Hra, Hrb in *. unfold field_key in Hmono. cbn [number] in *.
  split; [reflexivity|]. split; [reflexivity|]. exact Hmono.
Qed.

Lemma restart_numbering_monotone_witness :
  layer example_state = Some example_layer /\
  In (mkFeature 11 (Some 2)) (features example_layer) /\
  In (mkFeature 12 (Some 8)) (features example_layer) /\
  field_key (mkFeature 11 (Some 2)) < field_key (mkFeature 12 (Some 8)) /\
  exists l' va vb,
    layer (restart_numbering example_state) = Some l' /\
    attribute (features l') 11 = Some (Some va) /\
    attribute (features l') 12 = Some (Some vb) /\
    va < vb.
Proof.
  assert (Hnd : NoDup (map id (features example_layer))).
  { repeat constructor; simpl; intuition discriminate. }
  assert (Ha : In (mkFeature 11 (Some 2)) (features example_layer))
    by (simpl; right; left; reflexivity).
  assert (Hb : In (mkFeature 12 (Some 8)) (features example_layer))
    by (simpl; right; right; left; reflexivity).
  split; [reflexivity|]. split; [exact Ha|]. split; [exact Hb|].
  split; [reflexivity|].
  exact (restart_numbering_monotone example_state example_layer
           (mkFeature 11 (Some 2)) (mkFeature 12 (Some 8))
           eq_refl eq_refl Hnd Ha Hb eq_refl eq_refl eq_refl).
Defined.

(** X10.  After [restart_numbering] on a layer that accepts edits and has
    unique feature identifiers, numbering goes on right behind the
    renumbered features: with k features numbered, the next unnumbered
    feature clicked gets k + 1. *)
Theorem restart_then_next_number (s : AutoNumbering) (l : Layer)
    (ft : Feature) :
  active s = true -> layer s = Some l -> readOnly l = false ->
  NoDup (map id (features l)) ->
  In ft (features l) -> is_numbered ft = false ->
  exists s' l',
    on_selection_changed [id ft] (restart_numbering s) = Returned s' /\
    layer s' = Some l' /\
    attribute (features l') (id ft) =
      Some (Some (Z.of_nat (length (positive_numbers (features l))) + 1)).
Proof.
  intros Ha Hl Hro Hnd Hin Hn.
  set (fs' := map (relabel (map id (restart_order (features l))))
                  (features l)).
  set (l0 := mkLayer fs' (selectedIds l) false false).
  assert (Hl0 : layer (restart_numbering s) = Some l0).
  { unfold restart_numbering. rewrite Hl. cbn [layer].
    rewrite restart_layer_features by assumption. reflexivity. }
  assert (Hids : map id fs' = map id (features l)).
  { unfold fs'. rewrite map_map. apply map_ext. intro g.
    apply relabel_id. }
  assert (Hin' : In ft fs').
  { unfold fs'. apply in_map_iff. exists ft.
    split; [apply relabel_unnumbered; assumption | exact Hin]. }
  assert (Hsel : selectedFeatures (selectByIds [id ft] l0) = [ft]).
  { apply (select_one l0 ft);
      [cbn [features l0]; rewrite Hids; exact Hnd | exact Hin']. }
  assert (Hnext : next_number (selectByIds [id ft] l0) =
                  Z.of_nat (length (positive_numbers (features l))) + 1).
  { unfold next_number, getFeatures. cbn [features selectByIds l0].
    unfold fs'. rewrite scan_max_restarted by assumption. reflexivity. }
  unfold on_selection_changed.
  rewrite (number_selected_assigns _ (selectByIds [id ft] l0) ft);
    [ | unfold restart_numbering; rewrite Hl; exact Ha
      | unfold set_selection; rewrite Hl0; reflexivity
      | exact Hsel | exact Hn ].
  rewrite assigned_writable by (try assumption; reflexivity).
  rewrite Hnext. eexists. eexists.
  split; [reflexivity|]. split; [reflexivity|].
  cbn [features]. apply attribute_written.
  apply hasFeature_In. cbn [features selectByIds l0].
  rewrite Hids. apply in_map. exact Hin.
Qed.

Lemma restart_then_next_number_witness :
  active example_state = true /\
  layer example_state = Some example_layer /\
  In (mkFeature 13 None) (features example_layer) /\
  exists s' l',
    on_selection_changed [13] (restart_numbering example_state) =
      Returned s' /\
    layer s' = Some l' /\
    attribute (features l') 13 =
      Some (Some (Z.of_nat
                    (length (positive_numbers (features example_layer)))
                  + 1)).
Proof.
  assert (Hnd : NoDup (map id (features example_layer))).
  { repeat constructor; simpl; intuition discriminate. }
  assert (Hin : In (mkFeature 13 None) (features example_layer))
    by (simpl; right; right; right; left; reflexivity).
  split; [reflexivity|]. split; [reflexivity|]. split; [exact Hin|].
  exact (restart_then_next_number example_state example_layer
           (mkFeature 13 None) eq_refl eq_refl eq_refl Hnd Hin eq_refl).
Defined.

(** ** What no command does *)

Section Commands.

Lemma apply_writes_ids ws fs : map id (apply_writes ws fs) = map id fs.
Proof.
  rewrite apply_writes_pointwise, map_map. apply map_ext. intro ft.
  unfold apply_writes1. revert ft.
  induction ws as [|w ws IH]; intro ft; simpl.
  - reflexivity.
  - rewrite IH. apply setNumber_id.
Qed.

(** A loop of writes in one edit session keeps the features' identifiers,
    their order, the selection and the provider. *)
Lemma written_all_layer l ws :
  exists fs',
    commitChanges (write_all (startEditing l) ws) =
      mkLayer fs' (selectedIds l) (readOnly l) false /\
    map id fs' = map id (features l).
Proof.
  assert (Hf : features (startEditing l) = features l)
    by (unfold startEditing; destruct (readOnly l); reflexivity).
  assert (Hs : selectedIds (startEditing l) = selectedIds l)
    by (unfold startEditing; destruct (readOnly l); reflexivity).
  assert (Hr : readOnly (startEditing l) = readOnly l)
    by (unfold startEditing; destruct (readOnly l) eqn:E;
        [exact E | reflexivity]).
  destruct (editable (startEditing l)) eqn:He.
  - rewrite write_all_open by assumption. eexists.
    unfold commitChanges. cbn [features selectedIds readOnly].
    rewrite Hs, Hr. split; [reflexivity|].
    rewrite apply_writes_ids, Hf. reflexivity.
  - rewrite write_all_closed by assumption. exists (features l).
    unfold commitChanges. rewrite Hf, Hs, Hr. split; reflexivity.
Qed.

Lemma written_ids l fid v :
  map id (if editable (startEditing l)
          then map (setNumber fid v) (features l) else features l) =
  map id (features l).
Proof.
  destruct (editable (startEditing l)); [|reflexivity].
  rewrite map_map. apply map_ext. intro g. apply setNumber_id.
Qed.

Lemma pop_spec (A : Type) (l h : list A) (x : A) :
  pop l = Some (h, x) -> l = h ++ [x].
Proof.
  unfold pop. destruct (rev l) as [|y rest] eqn:E; [discriminate|].
  intro H. injection H as <- <-.
  rewrite <- (rev_involutive l), E. reflexivity.
Qed.

(** The layer [undo_last] leaves when it has one. *)
Lemma undo_last_layer s l h r :
  layer s = Some l -> history s = h ++ [r] ->
  undo_last s =
  Returned
    (mkAutoNumbering
       (Some (mkLayer (if editable (startEditing l)
                       then map (setNumber (feature_id r) (old_value r))
                                (features l)
                       else features l)
                      (selectedIds l) (readOnly l) false))
       h (active s)
       (match h with [] => false | _ :: _ => undo_btn s end)
       (if snd (changeAttributeValue (startEditing l) (feature_id r)
                                     (old_value r))
        then messageBar s ++ [MsgUndo (new_value r)] else messageBar s)).
Proof.
  intros Hl Hh. unfold undo_last. rewrite Hh, pop_app_last, Hl.
  rewrite <- written_layer.
  destruct (changeAttributeValue (startEditing l) (feature_id r)
                                 (old_value r)) as [l2 ok].
  reflexivity.
Qed.

Lemma assigned_layer s l ft :
  layer (assigned s l ft) =
  Some (mkLayer (if editable (startEditing l)
                 then map (setNumber (id ft) (Some (next_number l)))
                          (features l)
                 else features l)
                (selectedIds l) (readOnly l) false).
Proof. unfold assigned. cbn [layer]. rewrite written_layer. reflexivity. Qed.



End Commands.



(** ** The undo stack stays in step with the layer *)

Section UndoStack.

Lemma undo_stack_ok_selection ids s :
  undo_stack_ok s -> undo_stack_ok (set_selection ids s).
Proof.
  intros [Hbtn Hrec]. split; [exact Hbtn|].
  intros r Hr. destruct (Hrec r Hr) as [Hpos [l [Hl Hin]]].
  split; [exact Hpos|]. exists (selectByIds ids l).
  unfold set_selection. cbn [layer]. rewrite Hl. split; [reflexivity|].
  exact Hin.
Qed.

Lemma undo_stack_ok_assigned s l ft :
  layer s = Some l -> selectedFeatures l = [ft] ->
  undo_stack_ok s -> undo_stack_ok (assigned s l ft).
Proof.
  intros Hl Hsel [Hbtn Hrec]. split.
  - intros _. unfold assigned. cbn [history].
    intro H. apply app_eq_nil in H as [_ H]. discriminate.
  - intros r Hr. rewrite assigned_layer.
    assert (Hids : forall fid, In fid (map id (features l)) ->
      exists l', Some (mkLayer
                         (if editable (startEditing l)
                          then map (setNumber (id ft)
                                              (Some (next_number l)))
                                   (features l)
                          else features l)
                         (selectedIds l) (readOnly l) false) = Some l' /\
                 In fid (map id (features l'))).
    { intros fid Hfid. eexists. split; [reflexivity|].
      cbn [features]. rewrite written_ids. exact Hfid. }
    unfold assigned in Hr. cbn [history] in Hr.
    apply in_app_or in Hr as [Hr | [<- | []]].
    + destruct (Hrec r Hr) as [Hpos [l0 [Hl0 Hin]]].
      assert (l0 = l) by congruence. subst l0.
      split; [exact Hpos | apply Hids; exact Hin].
    + cbn [new_value feature_id].
      split; [apply next_number_positive|].
      apply Hids. apply in_map. eapply selected_In. exact Hsel.
Qed.

Lemma undo_stack_ok_execute c s :
  undo_stack_ok s -> raises (execute c s) = false ->
  undo_stack_ok (state_of (execute c s)).
Proof.
  intros Hok Hret. destruct c as [ids| |reply|]; cbn [execute] in *.
  - unfold on_selection_changed in *.
    apply (undo_stack_ok_selection ids) in Hok.
    destruct (number_selected (set_selection ids s)) as [s'|s'] eqn:H;
      [|discriminate].
    cbn [state_of].
    apply number_selected_inv in H
      as [-> | [l [ft [_ [Hl [Hsel [_ ->]]]]]]]; [exact Hok|].
    apply undo_stack_ok_assigned; assumption.
  - destruct (pop (history s)) as [[h r]|] eqn:Hp.
    + apply pop_spec in Hp. destruct (layer s) as [l|] eqn:Hl.
      * rewrite (undo_last_layer s l h r Hl Hp). cbn [state_of].
        destruct Hok as [_ Hrec]. split.
        -- cbn [undo_btn history]. destruct h; [discriminate|].
           intros _. discriminate.
        -- intros r0 Hr0. cbn [history] in Hr0.
           destruct (Hrec r0) as [Hpos [l0 [Hl0 Hin]]].
           { rewrite Hp. apply in_or_app. left. exact Hr0. }
           assert (l0 = l) by congruence. subst l0.
           split; [exact Hpos|]. eexists. split; [reflexivity|].
           cbn [features]. rewrite written_ids. exact Hin.
      * unfold undo_last in Hret. rewrite Hp, pop_app_last, Hl in Hret.
        discriminate.
    + unfold undo_last. rewrite Hp. exact Hok.
  - cbn [state_of]. unfold reset_numbers.
    destruct (layer s) as [l|]; [|exact Hok].
    destruct reply; [|exact Hok].
    split; [discriminate | intros r []].
  - cbn [state_of]. unfold restart_numbering.
    destruct (layer s) as [l|] eqn:Hl; [|exact Hok].
    destruct Hok as [Hbtn Hrec]. split; [exact Hbtn|].
    intros r Hr. cbn [history] in Hr.
    destruct (Hrec r Hr) as [Hpos [l0 [Hl0 Hin]]].
    assert (l0 = l) by congruence. subst l0.
    split; [exact Hpos|]. cbn [layer]. unfold restart_layer.
    destruct (written_all_layer l
                (renumber_writes
                   (sort_by old_number
                      (collect_numbered (getFeatures l)))))
      as [fs' [-> Hids]].
    eexists. split; [reflexivity|]. cbn [features]. rewrite Hids.
    exact Hin.
Qed.

End UndoStack.

(** X12.  Every command that returns keeps the undo stack in step with the
    layer: afterwards an enabled undo button still has a record to undo,
    and every record still names a feature of the layer and a number of
    at least 1. *)
Theorem execute_keeps_undo_stack (c : Command) (s : AutoNumbering) :
  undo_stack_ok s -> raises (execute c s) = false ->
  undo_stack_ok (state_of (execute c s)).
Proof. apply undo_stack_ok_execute. Qed.

Lemma execute_keeps_undo_stack_witness :
  undo_stack_ok example_state /\
  raises (execute UndoLast example_state) = false /\
  undo_stack_ok (state_of (execute UndoLast example_state)).
Proof.
  assert (Hok : undo_stack_ok example_state).
  { split; [discriminate|]. intros r [<- | []].
    split; [discriminate|]. exists example_layer.
    split; [reflexivity|]. simpl. right. right. left. reflexivity. }
  split; [exact Hok|]. split; [reflexivity|].
  exact (execute_keeps_undo_stack UndoLast example_state Hok eq_refl).
Defined.

(** ** Activation and deactivation *)

(** X13.  [start_numbering] refuses to activate without an active layer or
    on a layer that is not a polygon layer: the activation flag, the undo
    stack, the undo button and the dock are as before, the toggle is
    unchecked and one warning is shown.  The controller's layer is
    replaced all the same, by nothing or by the refused layer. *)
Theorem start_numbering_refuses (activeLayer : option ActiveLayer)
    (p : Plugin) :
  (forall al, activeLayer = Some al ->
              geometryType al <> PolygonGeometry) ->
  active (controller (start_numbering activeLayer p)) =
    active (controller p) /\
  history (controller (start_numbering activeLayer p)) =
    history (controller p) /\
  undo_btn (controller (start_numbering activeLayer p)) =
    undo_btn (controller p) /\
  toggle_checked (start_numbering activeLayer p) = false /\
  dock_visible (start_numbering activeLayer p) = dock_visible p /\
  layer (controller (start_numbering activeLayer p)) =
    option_map vectorLayer activeLayer /\
  notices (start_numbering activeLayer p) =
    notices p ++ [match activeLayer with
                  | None => WarnSelectLayer
                  | Some _ => WarnPolygonLayer
                  end].
Proof.
  intro H. unfold start_numbering. destruct activeLayer as [al|].
  - specialize (H al eq_refl).
    destruct (geometryType al); try (repeat split; reflexivity).
    contradiction.
  - repeat split; reflexivity.
Qed.

Lemma start_numbering_refuses_witness :
  (forall al, Some (mkActiveLayer LineGeometry fresh_layer) = Some al ->
              geometryType al <> PolygonGeometry) /\
  active (controller
            (start_numbering (Some (mkActiveLayer LineGeometry fresh_layer))
               (mkPlugin example_state true true []))) = true /\
  layer (controller
           (start_numbering (Some (mkActiveLayer LineGeometry fresh_layer))
              (mkPlugin example_state true true []))) =
    Some fresh_layer /\
  notices (start_numbering (Some (mkActiveLayer LineGeometry fresh_layer))
             (mkPlugin example_state true true [])) = [WarnPolygonLayer].
Proof.
  assert (H : forall al,
             Some (mkActiveLayer LineGeometry fresh_layer) = Some al ->
             geometryType al <> PolygonGeometry).
  { intros al Hal. injection Hal as <-. discriminate. }
  split; [exact H|].
  pose proof (start_numbering_refuses
                (Some (mkActiveLayer LineGeometry fresh_layer))
                (mkPlugin example_state true true []) H)
    as [Ha [_ [_ [_ [_ [Hl Hn]]]]]].
  split; [exact Ha|]. split; [exact Hl | exact Hn].
Defined.

Section Activation.

Lemma execute_with_active c b s :
  (forall ids, c <> SelectionChanged ids) ->
  execute c (set_active b s) = with_active b (execute c s).
Proof.
  intro Hc. destruct c as [ids| |reply|]; cbn [execute].
  - exfalso. apply (Hc ids). reflexivity.
  - unfold undo_last. cbn [history layer set_active].
    destruct (pop (history s)) as [[h r]|]; [|reflexivity].
    destruct (layer s) as [l|]; [|reflexivity].
    destruct (changeAttributeValue _ _ _) as [l2 ok]. reflexivity.
  - unfold reset_numbers. cbn [layer set_active].
    destruct (layer s); [destruct reply|]; reflexivity.
  - unfold restart_numbering. cbn [layer set_active].
    destruct (layer s); reflexivity.
Qed.





End Activation.

(** X14.  [undo_last], [reset_numbers] and [restart_numbering] do not
    look at the activation flag: on an inactive controller each does
    exactly what it does on an active one, so numbers given while active
    can be undone, reset and renumbered after [stop_numbering]. *)
Theorem buttons_ignore_activation (c : Command) (b : bool)
    (s : AutoNumbering) :
  (forall ids, c <> SelectionChanged ids) ->
  execute c (set_active b s) = with_active b (execute c s).
Proof. apply execute_with_active. Qed.

Lemma buttons_ignore_activation_witness :
  (forall ids, UndoLast <> SelectionChanged ids) /\
  execute UndoLast (set_active false example_state) =
  with_active false (execute UndoLast example_state).
Proof.
  assert (H : forall ids, UndoLast <> SelectionChanged ids)
    by (intros ids; discriminate).
  split; [exact H|].
  exact (buttons_ignore_activation UndoLast false example_state H).
Defined.


(** X16.  After [stop_numbering] a selection change numbers nothing,
    whatever is selected; the layer, its field values and the undo stack
    are those [stop_numbering] found. *)
Theorem stop_numbering_ignores_selection (p : Plugin)
    (ids : list FeatureId) :
  on_selection_changed ids (controller (stop_numbering p)) =
    Returned (set_selection ids (controller (stop_numbering p))) /\
  layer (controller (stop_numbering p)) = layer (controller p) /\
  history (controller (stop_numbering p)) = history (controller p) /\
  field_values (set_selection ids (controller (stop_numbering p))) =
    field_values (controller p).
Proof.
  split; [reflexivity|]. split; [reflexivity|]. split; [reflexivity|].
  unfold field_values, set_selection, stop_numbering.
  cbn [controller layer set_active].
  destruct (layer (controller p)); reflexivity.
Qed.
